(** * Durarara MVP API: a shallow embedding of [main.py] and [schemas.py]

    The request handlers of [main.py] are embedded as computations in a small
    state-and-exception monad over the document store.  Conventions:

    - Python [str] is [string], a text within the ASCII range: [lower],
      [upper], [strip] and [s[:1]] are Python's there.  Outside it Python
      maps and trims by Unicode character (the upper case of a letter may be
      two letters, a no-break space is whitespace), which the model does not
      follow; a property that depends on it is stated for ASCII text.
    - Python [float] is an IEEE double ([PrimFloat.float]) and [int] is [Z].
      The functions of the [math] module and [**] are the platform's; they
      are a parameter of [nearby_alerts]: each returns a float or raises.
    - [datetime.now(timezone.utc)] and the identifier the driver generates
      for an inserted document are inputs of a handler ([now], [new_id]).
    - [db] is the driver's database object (pymongo's API).  A collection is
      the list of its documents in natural (insertion) order; [find_one],
      [update_one] and [delete_one] act on the first match.  The driver
      refuses to store an integer of a request that does not fit eight bytes
      ([OverflowError]); the [limit] of a query and the counter a [$inc]
      updates are taken to fit. *)

From Stdlib Require Import ZArith List String Ascii Bool Lia Sorted Permutation.
From Stdlib Require Import PrimFloat SpecFloat FloatOps.
Import ListNotations.

Set Implicit Arguments.

(** ** Python strings *)

Module Str.

Definition is_upper (c : ascii) : bool :=
  (65 <=? nat_of_ascii c)%nat && (nat_of_ascii c <=? 90)%nat.

Definition is_lower (c : ascii) : bool :=
  (97 <=? nat_of_ascii c)%nat && (nat_of_ascii c <=? 122)%nat.

Definition lower_char (c : ascii) : ascii :=
  if is_upper c then ascii_of_nat (nat_of_ascii c + 32) else c.

Definition upper_char (c : ascii) : ascii :=
  if is_lower c then ascii_of_nat (nat_of_ascii c - 32) else c.

Fixpoint map_chars (f : ascii -> ascii) (s : string) : string :=
  match s with
  | EmptyString => EmptyString
  | String c s' => String (f c) (map_chars f s')
  end.

(** [s.lower()] and [s.upper()] *)
Definition lower : string -> string := map_chars lower_char.
Definition upper : string -> string := map_chars upper_char.

(** [sub in s] *)
Fixpoint contains (sub s : string) : bool :=
  String.prefix sub s ||
  match s with
  | EmptyString => false
  | String _ s' => contains sub s'
  end.

(** [s[:1]] *)
Definition first1 (s : string) : string :=
  match s with
  | EmptyString => EmptyString
  | String c _ => String c EmptyString
  end.

(** [str.isspace] on the ASCII range: TAB, LF, VT, FF, CR, FS, GS, RS, US, SP. *)
Definition is_space (c : ascii) : bool :=
  let n := nat_of_ascii c in
  ((9 <=? n)%nat && (n <=? 13)%nat) || ((28 <=? n)%nat && (n <=? 32)%nat).

Fixpoint lstrip (s : string) : string :=
  match s with
  | EmptyString => EmptyString
  | String c s' => if is_space c then lstrip s' else s
  end.

Fixpoint rstrip (s : string) : string :=
  match s with
  | EmptyString => EmptyString
  | String c s' =>
      match rstrip s' with
      | EmptyString => if is_space c then EmptyString else String c EmptyString
      | t => String c t
      end
  end.

(** [s.strip()] *)
Definition strip (s : string) : string := rstrip (lstrip s).

(** Truthiness of a string: non-empty. *)
Definition truthy (s : string) : bool :=
  match s with EmptyString => false | _ => true end.

End Str.

(** ** [bson.ObjectId]

    The driver's identifier type.  [ObjectId(s)] accepts a string [s] of 24
    characters that [bytes.fromhex] reads, and raises [InvalidId] on any
    other string.  [bytes.fromhex] reads pairs of hexadecimal digits and
    skips ASCII whitespace before a pair (not inside one), so a string of
    24 characters with whitespace in it yields fewer than 12 bytes and is
    accepted all the same.  Two identifiers are equal when their bytes are;
    [str] prints the bytes as lower-case hexadecimal digits, and an
    identifier is kept here as that rendering. *)

Module bson.

Definition oid := string.

Definition is_hex (c : ascii) : bool :=
  let n := nat_of_ascii c in
  ((48 <=? n)%nat && (n <=? 57)%nat) ||
  ((65 <=? n)%nat && (n <=? 70)%nat) ||
  ((97 <=? n)%nat && (n <=? 102)%nat).

(** C's [isspace] on ASCII: TAB, LF, VT, FF, CR and SP. *)
Definition is_c_space (c : ascii) : bool :=
  let n := nat_of_ascii c in
  ((9 <=? n)%nat && (n <=? 13)%nat) || (n =? 32)%nat.

(** [bytes.fromhex(s)], the bytes rendered as lower-case digits; [None]
    is its [ValueError]. *)
Fixpoint fromhex (s : string) : option string :=
  match s with
  | EmptyString => Some EmptyString
  | String c s' =>
      if is_c_space c then fromhex s'
      else if is_hex c then
        match s' with
        | EmptyString => None
        | String c2 s'' =>
            if is_hex c2 then
              match fromhex s'' with
              | Some rest => Some (String (Str.lower_char c) (String (Str.lower_char c2) rest))
              | None => None
              end
            else None
        end
      else None
  end.

Definition ObjectId (s : string) : option oid :=
  if (String.length s =? 24)%nat then fromhex s else None.

Definition str (o : oid) : string := o.

Definition eqb (a b : oid) : bool := String.eqb a b.

End bson.

Definition datetime := Z.
Bind Scope Z_scope with datetime.

(** ** Stored documents ([schemas.py], with the fields the handlers write) *)

Record Doc (A : Type) := mkDoc { _id : bson.oid; val : A }.

Module Persona.
Record t := mk {
  tenant_id : string;
  handle : string;
  color : option string;
  bio : option string;
  avatar_letter : string;
  trust_level : Z;
  score_thanks : Z;
  score_helpful : Z;
  created_at : datetime;
  updated_at : datetime;
  is_banned : bool }.
End Persona.

Module Room.
Record t := mk {
  tenant_id : string;
  name : string;
  type : string;
  city : option string;
  topic : option string;
  member_count : Z;
  created_at : datetime;
  updated_at : datetime }.
End Room.

Module RoomMember.
Record t := mk {
  tenant_id : string;
  room_id : string;
  persona_id : string;
  joined_at : datetime }.
End RoomMember.

Module Message.
Record t := mk {
  tenant_id : string;
  room_id : string;
  persona_id : string;
  content : string;
  reactions : list string;
  created_at : datetime;
  updated_at : datetime;
  deleted : bool }.
End Message.

(** [lat] and [lng] are read with [a.get("lat", 0)], so a stored alert may
    lack them: [None] is the absent field. *)
Module Alert.
Record t := mk {
  tenant_id : string;
  persona_id : string;
  type : string;
  text : string;
  radius_m : Z;
  lat : option float;
  lng : option float;
  status : string;
  reactions_real : Z;
  reactions_spam : Z;
  reactions_helping : Z;
  created_at : datetime;
  updated_at : datetime }.
End Alert.

(** ** The document store *)

Record Database := mkDb {
  persona : list (Doc Persona.t);
  room : list (Doc Room.t);
  roommember : list (Doc RoomMember.t);
  message : list (Doc Message.t);
  alert : list (Doc Alert.t) }.

Definition set_persona (c : list (Doc Persona.t)) (d : Database) : Database :=
  mkDb c (room d) (roommember d) (message d) (alert d).
Definition set_room (c : list (Doc Room.t)) (d : Database) : Database :=
  mkDb (persona d) c (roommember d) (message d) (alert d).
Definition set_roommember (c : list (Doc RoomMember.t)) (d : Database) : Database :=
  mkDb (persona d) (room d) c (message d) (alert d).
Definition set_message (c : list (Doc Message.t)) (d : Database) : Database :=
  mkDb (persona d) (room d) (roommember d) c (alert d).
Definition set_alert (c : list (Doc Alert.t)) (d : Database) : Database :=
  mkDb (persona d) (room d) (roommember d) (message d) c.

Definition empty_db : Database := mkDb [] [] [] [] [].

(** ** Collection operations (the driver's, on lists) *)

Module Col.
Section Ops.
Variable D : Type.

(** [find(filter)] *)
Definition find (flt : D -> bool) (c : list D) : list D := List.filter flt c.

(** [find_one(filter)] *)
Definition find_one (flt : D -> bool) (c : list D) : option D := List.find flt c.

(** [insert_one(doc)] *)
Definition insert_one (d : D) (c : list D) : list D := c ++ [d].

(** [update_one(filter, update)]: the first match is updated. *)
Fixpoint update_one (flt : D -> bool) (upd : D -> D) (c : list D) : list D :=
  match c with
  | [] => []
  | d :: c' => if flt d then upd d :: c' else d :: update_one flt upd c'
  end.

(** [update_one(filter, update, upsert=True)]: without a match, [ins] (the
    filter's fields, the update's and a new [_id]) is inserted. *)
Definition upsert_one (flt : D -> bool) (upd : D -> D) (ins : D) (c : list D) : list D :=
  match List.find flt c with
  | Some _ => update_one flt upd c
  | None => c ++ [ins]
  end.

(** [delete_one(filter)]: the first match is deleted. *)
Fixpoint delete_one (flt : D -> bool) (c : list D) : list D :=
  match c with
  | [] => []
  | d :: c' => if flt d then c' else d :: delete_one flt c'
  end.

(** [cursor.sort(key, direction)] with [direction] 1 (ascending) or -1
    (descending); documents with equal keys keep their natural order. *)
Definition before (key : D -> Z) (direction : Z) (x y : D) : bool :=
  if (direction =? 1)%Z then (key x <=? key y)%Z else (key y <=? key x)%Z.

Fixpoint sort_insert (key : D -> Z) (direction : Z) (x : D) (l : list D) : list D :=
  match l with
  | [] => [x]
  | y :: l' =>
      if before key direction x y then x :: l
      else y :: sort_insert key direction x l'
  end.

Definition sort (key : D -> Z) (direction : Z) (c : list D) : list D :=
  fold_right (sort_insert key direction) [] c.

(** [cursor.limit(n)]: [0] is no limit; a negative [n] asks for [|n|]
    documents, sent in a single batch. *)
Definition limit (n : Z) (c : list D) : list D :=
  if (n =? 0)%Z then c else firstn (Z.abs_nat n) c.

End Ops.
End Col.

(** ** Exceptions and the handler monad

    [db] is [None] when storage is not configured.  A handler either returns
    or raises; writes made before a raise stay in the store. *)

Inductive Exn :=
| HTTPException (status_code : Z) (detail : string)
| InvalidId (oid : string)   (* bson.errors.InvalidId: not an HTTPException *)
| OverflowError              (* an integer beyond eight bytes; [int] of an infinity *)
| ValueError                 (* a [math] domain error; [int] of a NaN *)
| TypeError.                 (* subscripting [db] while it is [None] *)

Inductive Outcome (A : Type) :=
| Return (a : A)
| Raise (e : Exn).
Arguments Raise {A} e.

Definition M (A : Type) : Type := option Database -> Outcome A * option Database.

Definition ret {A} (a : A) : M A := fun st => (Return a, st).

Definition bind {A B} (m : M A) (k : A -> M B) : M B :=
  fun st =>
    match m st with
    | (Return a, st') => k a st'
    | (Raise e, st') => (Raise e, st')
    end.

Definition raise {A} (e : Exn) : M A := fun st => (Raise e, st).

(** [try: m  except Exception: h] *)
Definition try_except {A} (m : M A) (h : Exn -> M A) : M A :=
  fun st =>
    match m st with
    | (Return a, st') => (Return a, st')
    | (Raise e, st') => h e st'
    end.

Notation "x <- m ;; k" := (bind m (fun x => k))
  (at level 61, m at next level, right associativity).
Notation "m ;;; k" := (bind m (fun _ => k))
  (at level 61, right associativity).

(** the global [db] *)
Definition get_db : M (option Database) := fun st => (Return st, st).

(** [ObjectId(s)] as a computation *)
Definition ObjectId (s : string) : M bson.oid :=
  match bson.ObjectId s with
  | Some o => ret o
  | None => raise (InvalidId s)
  end.

(** [db["name"]]: a collection of the store *)
Record Collection (D : Type) := mkCol {
  col_get : Database -> list D;
  col_set : list D -> Database -> Database }.

Definition db_persona := mkCol persona set_persona.
Definition db_room := mkCol room set_room.
Definition db_roommember := mkCol roommember set_roommember.
Definition db_message := mkCol message set_message.
Definition db_alert := mkCol alert set_alert.

(** the range of a BSON integer *)
Definition fits_int64 (z : Z) : bool := ((- 2 ^ 63 <=? z) && (z <? 2 ^ 63))%Z.

Section Driver.
Variable D : Type.
Variable c : Collection D.

Definition col_read {A} (f : list D -> A) : M A :=
  fun st =>
    match st with
    | Some d => (Return (f (col_get c d)), st)
    | None => (Raise TypeError, st)
    end.

Definition col_write (f : list D -> list D) : M unit :=
  fun st =>
    match st with
    | Some d => (Return tt, Some (col_set c (f (col_get c d)) d))
    | None => (Raise TypeError, st)
    end.

Definition find (flt : D -> bool) : M (list D) := col_read (Col.find flt).
Definition find_one (flt : D -> bool) : M (option D) := col_read (Col.find_one flt).
Definition insert_one (d : D) : M unit := col_write (Col.insert_one d).
Definition update_one (flt : D -> bool) (upd : D -> D) : M unit :=
  col_write (Col.update_one flt upd).
Definition upsert_one (flt : D -> bool) (upd : D -> D) (ins : D) : M unit :=
  col_write (Col.upsert_one flt upd ins).
Definition delete_one (flt : D -> bool) : M unit := col_write (Col.delete_one flt).

(** [insert_one(doc)] for a document that carries the integer [n] of a
    request: the driver encodes the document before it sends anything, and
    an integer outside eight bytes raises [OverflowError]. *)
Definition insert_one_int (n : Z) (d : D) : M unit :=
  if fits_int64 n then insert_one d else raise OverflowError.

End Driver.

(** ** Requests and responses *)

Definition TENANT_DEFAULT : string := "default".

Record WithId (A : Type) := mkWithId { id : string; doc : A }.

(** [to_str_id]: the document with [_id] replaced by its string, as [id]. *)
Definition to_str_id {A} (d : Doc A) : WithId A :=
  mkWithId (bson.str (_id d)) (val d).

Module PersonaCreate.
Record t := mk {
  handle : string;
  color : option string;
  bio : option string;
  avatar_letter : option string }.
End PersonaCreate.

Module RoomCreate.
Record t := mk {
  name : string;
  type : string;
  city : option string;
  topic : option string }.
End RoomCreate.

Module JoinLeave.
Record t := mk { persona_id : string }.
End JoinLeave.

Module MessageCreate.
Record t := mk {
  room_id : string;
  persona_id : string;
  content : string }.
End MessageCreate.

Module AlertCreate.
Record t := mk {
  persona_id : string;
  type : string;
  text : string;
  radius_m : Z;
  lat : float;
  lng : float }.
End AlertCreate.

(** [{"id": str(res.inserted_id), **doc}]: [insert_one] has put the new
    [_id] into [doc], so the dictionary returned holds it next to [id]. *)
Record Created (A : Type) := mkCreated { created_id : string; created_doc : Doc A }.

Record OkResponse := mkOk { ok : bool }.
Record NearbyItem := mkNearby { item : WithId Alert.t; distance_m : Z }.
Record ModerationReq := mkModerationReq { text : string }.
Record ModerationResponse := mkModeration { flagged : bool }.

Definition not_configured {A} : M A :=
  raise (HTTPException 500 "Database not configured").

(** ** Filters of the handlers *)

Definition global_room_filter (r : Doc Room.t) : bool :=
  String.eqb (Room.tenant_id (val r)) TENANT_DEFAULT &&
  String.eqb (Room.type (val r)) "global" &&
  String.eqb (Room.name (val r)) "Global".

Definition handle_filter (tenant_id handle : string) (p : Doc Persona.t) : bool :=
  String.eqb (Persona.tenant_id (val p)) tenant_id &&
  String.eqb (Persona.handle (val p)) handle.

Definition room_filter (rid : bson.oid) (tenant_id : string) (r : Doc Room.t) : bool :=
  bson.eqb (_id r) rid && String.eqb (Room.tenant_id (val r)) tenant_id.

Definition room_id_filter (rid : bson.oid) (r : Doc Room.t) : bool :=
  bson.eqb (_id r) rid.

Definition persona_filter (pid : bson.oid) (tenant_id : string) (p : Doc Persona.t) : bool :=
  bson.eqb (_id p) pid && String.eqb (Persona.tenant_id (val p)) tenant_id.

Definition member_filter (tenant_id room_id persona_id : string) (m : Doc RoomMember.t) : bool :=
  String.eqb (RoomMember.tenant_id (val m)) tenant_id &&
  String.eqb (RoomMember.room_id (val m)) room_id &&
  String.eqb (RoomMember.persona_id (val m)) persona_id.

Definition message_filter (tenant_id room_id : string) (m : Doc Message.t) : bool :=
  String.eqb (Message.tenant_id (val m)) tenant_id &&
  String.eqb (Message.room_id (val m)) room_id.

(** [{"$inc": {"member_count": k}, "$set": {"updated_at": now}}] *)
Definition inc_member_count (k : Z) (now : datetime) (r : Doc Room.t) : Doc Room.t :=
  let v := val r in
  mkDoc (_id r)
    (Room.mk (Room.tenant_id v) (Room.name v) (Room.type v) (Room.city v)
       (Room.topic v) (Room.member_count v + k) (Room.created_at v) now).

(** ** Handlers of [main.py] *)

Open Scope string_scope.

(** [ensure_global_room], run at startup *)
Definition ensure_global_room (now : datetime) (new_id : bson.oid) : M unit :=
  db <- get_db ;;
  match db with
  | None => ret tt
  | Some _ =>
      existing <- find_one db_room global_room_filter ;;
      match existing with
      | Some _ => ret tt
      | None =>
          insert_one db_room
            (mkDoc new_id (Room.mk TENANT_DEFAULT "Global" "global" None None 0 now now))
      end
  end.

(** [GET /api/personas] *)
Definition list_personas (tenant_id : string) : M (list (WithId Persona.t)) :=
  db <- get_db ;;
  match db with
  | None => not_configured
  | Some _ =>
      cur <- find db_persona (fun p => String.eqb (Persona.tenant_id (val p)) tenant_id) ;;
      ret (map to_str_id (Col.limit 200 cur))
  end.

(** [payload.avatar_letter or (payload.handle[:1].upper() if payload.handle else "?")] *)
Definition default_avatar_letter (payload : PersonaCreate.t) : string :=
  let fallback :=
    if Str.truthy (PersonaCreate.handle payload)
    then Str.upper (Str.first1 (PersonaCreate.handle payload))
    else "?" in
  match PersonaCreate.avatar_letter payload with
  | Some a => if Str.truthy a then a else fallback
  | None => fallback
  end.

(** [POST /api/personas] *)
Definition create_persona (now : datetime) (new_id : bson.oid)
    (payload : PersonaCreate.t) (tenant_id : string) : M (Created Persona.t) :=
  db <- get_db ;;
  match db with
  | None => not_configured
  | Some _ =>
      exists_ <- find_one db_persona (handle_filter tenant_id (PersonaCreate.handle payload)) ;;
      match exists_ with
      | Some _ => raise (HTTPException 400 "Handle already taken")
      | None =>
          let doc :=
            Persona.mk tenant_id (PersonaCreate.handle payload)
              (PersonaCreate.color payload) (PersonaCreate.bio payload)
              (default_avatar_letter payload) 1 0 0 now now false in
          insert_one db_persona (mkDoc new_id doc) ;;;
          ret (mkCreated (bson.str new_id) (mkDoc new_id doc))
      end
  end.

(** [GET /api/rooms] *)
Definition list_rooms (tenant_id : string) : M (list (WithId Room.t)) :=
  db <- get_db ;;
  match db with
  | None => not_configured
  | Some _ =>
      cur <- find db_room (fun r => String.eqb (Room.tenant_id (val r)) tenant_id) ;;
      ret (map to_str_id (Col.limit 200 cur))
  end.

(** [POST /api/rooms] *)
Definition create_room (now : datetime) (new_id : bson.oid)
    (payload : RoomCreate.t) (tenant_id : string) : M (Created Room.t) :=
  db <- get_db ;;
  match db with
  | None => not_configured
  | Some _ =>
      let doc :=
        Room.mk tenant_id (RoomCreate.name payload) (RoomCreate.type payload)
          (RoomCreate.city payload) (RoomCreate.topic payload) 0 now now in
      insert_one db_room (mkDoc new_id doc) ;;;
      ret (mkCreated (bson.str new_id) (mkDoc new_id doc))
  end.

(** [POST /api/rooms/{room_id}/join] *)
Definition join_room (now : datetime) (new_id : bson.oid)
    (room_id : string) (payload : JoinLeave.t) (tenant_id : string) : M OkResponse :=
  db <- get_db ;;
  match db with
  | None => not_configured
  | Some _ =>
      ids <- try_except
               (rid <- ObjectId room_id ;;
                pid <- ObjectId (JoinLeave.persona_id payload) ;;
                ret (rid, pid))
               (fun _ => raise (HTTPException 400 "Invalid ids")) ;;
      let (rid, pid) := ids in
      room <- find_one db_room (room_filter rid tenant_id) ;;
      match room with
      | None => raise (HTTPException 404 "Room not found")
      | Some _ =>
          persona <- find_one db_persona (persona_filter pid tenant_id) ;;
          match persona with
          | None => raise (HTTPException 404 "Persona not found")
          | Some _ =>
              upsert_one db_roommember
                (member_filter tenant_id room_id (JoinLeave.persona_id payload))
                (fun m => m)   (* $setOnInsert leaves a matched document as it is *)
                (mkDoc new_id
                   (RoomMember.mk tenant_id room_id (JoinLeave.persona_id payload) now)) ;;;
              update_one db_room (room_id_filter rid) (inc_member_count 1 now) ;;;
              ret (mkOk true)
          end
      end
  end.

(** [POST /api/rooms/{room_id}/leave] *)
Definition leave_room (now : datetime)
    (room_id : string) (payload : JoinLeave.t) (tenant_id : string) : M OkResponse :=
  db <- get_db ;;
  match db with
  | None => not_configured
  | Some _ =>
      delete_one db_roommember
        (member_filter tenant_id room_id (JoinLeave.persona_id payload)) ;;;
      rid <- ObjectId room_id ;;
      update_one db_room (room_id_filter rid) (inc_member_count (-1) now) ;;;
      ret (mkOk true)
  end.

(** [GET /api/messages] *)
Definition list_messages (room_id : string) (limit : Z) (tenant_id : string)
    : M (list (WithId Message.t)) :=
  db <- get_db ;;
  match db with
  | None => not_configured
  | Some _ =>
      try_except (ObjectId room_id)
        (fun _ => raise (HTTPException 400 "Invalid room id")) ;;;
      cur <- find db_message (message_filter tenant_id room_id) ;;
      ret (map to_str_id (Col.limit limit (Col.sort (fun m => Message.created_at (val m)) 1 cur)))
  end.

(** [POST /api/messages] *)
Definition send_message (now : datetime) (new_id : bson.oid)
    (payload : MessageCreate.t) (tenant_id : string) : M (Created Message.t) :=
  db <- get_db ;;
  match db with
  | None => not_configured
  | Some _ =>
      rid <- ObjectId (MessageCreate.room_id payload) ;;
      room <- find_one db_room (room_filter rid tenant_id) ;;
      match room with
      | None => raise (HTTPException 404 "Room not found")
      | Some _ =>
          pid <- ObjectId (MessageCreate.persona_id payload) ;;
          persona <- find_one db_persona (persona_filter pid tenant_id) ;;
          match persona with
          | None => raise (HTTPException 404 "Persona not found")
          | Some _ =>
              let doc :=
                Message.mk tenant_id (MessageCreate.room_id payload)
                  (MessageCreate.persona_id payload)
                  (Str.strip (MessageCreate.content payload)) [] now now false in
              insert_one db_message (mkDoc new_id doc) ;;;
              ret (mkCreated (bson.str new_id) (mkDoc new_id doc))
          end
      end
  end.

(** [POST /api/alerts] *)
Definition create_alert (now : datetime) (new_id : bson.oid)
    (payload : AlertCreate.t) (tenant_id : string) : M (Created Alert.t) :=
  db <- get_db ;;
  match db with
  | None => not_configured
  | Some _ =>
      pid <- ObjectId (AlertCreate.persona_id payload) ;;
      persona <- find_one db_persona (persona_filter pid tenant_id) ;;
      match persona with
      | None => raise (HTTPException 404 "Persona not found")
      | Some _ =>
          let doc :=
            Alert.mk tenant_id (AlertCreate.persona_id payload) (AlertCreate.type payload)
              (Str.strip (AlertCreate.text payload)) (AlertCreate.radius_m payload)
              (Some (AlertCreate.lat payload)) (Some (AlertCreate.lng payload))
              "Active" 0 0 0 now now in
          insert_one_int db_alert (Alert.radius_m doc) (mkDoc new_id doc) ;;;
          ret (mkCreated (bson.str new_id) (mkDoc new_id doc))
      end
  end.

(** *** [GET /api/alerts/nearby] *)

(** The functions [nearby_alerts] imports from [math], and [x ** y] on
    floats, are the platform's C library behind a check of its result: each
    takes a float and returns a float or raises.  The great-circle distance
    is computed with them, on doubles. *)
Record Math := mkMath {
  radians : float -> Outcome float;
  cos : float -> Outcome float;
  sin : float -> Outcome float;
  asin : float -> Outcome float;
  sqrt : float -> Outcome float;
  pow : float -> float -> Outcome float }.

(** Code that returns or raises without the store: one call after
    another, and such a call inside a handler. *)
Definition and_then {A B} (o : Outcome A) (k : A -> Outcome B) : Outcome B :=
  match o with
  | Return a => k a
  | Raise e => Raise e
  end.

Notation "x <~ o ;; k" := (and_then o (fun x => k))
  (at level 61, o at next level, right associativity).

Definition call {A} (o : Outcome A) : M A := fun st => (o, st).

(** [for x in xs: body], [acc] being what the body updates *)
Fixpoint for_each {A B} (xs : list A) (body : B -> A -> M B) (acc : B) : M B :=
  match xs with
  | [] => ret acc
  | x :: xs' => acc' <- body acc x ;; for_each xs' body acc'
  end.

(** [x <= n] for a float and an integer: Python compares the exact values *)
Definition float_le_int (x : float) (n : Z) : bool :=
  match Prim2SF x with
  | S754_nan => false
  | S754_infinity s => s
  | S754_zero _ => (0 <=? n)%Z
  | S754_finite s m e =>
      let v := if s then Z.neg m else Z.pos m in
      if (0 <=? e)%Z then (v * 2 ^ e <=? n)%Z else (v <=? n * 2 ^ (- e))%Z
  end.

(** [int(x)] of a float: truncation towards zero *)
Definition int (x : float) : Outcome Z :=
  match Prim2SF x with
  | S754_nan => Raise ValueError
  | S754_infinity _ => Raise OverflowError
  | S754_zero _ => Return 0%Z
  | S754_finite s m e =>
      let n := if (0 <=? e)%Z then (Z.pos m * 2 ^ e)%Z else (Z.pos m / 2 ^ (- e))%Z in
      Return (if s then (- n)%Z else n)
  end.

(** [a.get(key, 0)]: the integer 0 becomes the float 0.0 in the
    subtraction and in [radians] *)
Definition get_or_0 (field : option float) : float :=
  match field with
  | Some x => x
  | None => 0%float
  end.

Section Nearby.
Variable math : Math.

Open Scope float_scope.

(** The operands of [a] are evaluated from left to right. *)
Definition haversine (lat1 lon1 lat2 lon2 : float) : Outcome float :=
  let R_ := 6371000 in
  dlat <~ radians math (lat2 - lat1) ;;
  dlon <~ radians math (lon2 - lon1) ;;
  sin_dlat <~ sin math (dlat / 2) ;;
  sin2_dlat <~ pow math sin_dlat 2 ;;
  rlat1 <~ radians math lat1 ;;
  cos_lat1 <~ cos math rlat1 ;;
  rlat2 <~ radians math lat2 ;;
  cos_lat2 <~ cos math rlat2 ;;
  sin_dlon <~ sin math (dlon / 2) ;;
  sin2_dlon <~ pow math sin_dlon 2 ;;
  let a := sin2_dlat + cos_lat1 * cos_lat2 * sin2_dlon in
  sqrt_a <~ sqrt math a ;;
  asin_a <~ asin math sqrt_a ;;
  let c := 2 * asin_a in
  Return (R_ * c).

Close Scope float_scope.

(** One turn of the [for a in ...] loop: [items] after alert [a]. *)
Definition nearby_step (lat lng : float) (radius_m : Z)
    (items : list NearbyItem) (a : Doc Alert.t) : M (list NearbyItem) :=
  dist <- call (haversine lat lng (get_or_0 (Alert.lat (val a)))
                  (get_or_0 (Alert.lng (val a)))) ;;
  if float_le_int dist radius_m
  then n <- call (int dist) ;; ret (items ++ [mkNearby (to_str_id a) n])%list
  else ret items.

Definition nearby_alerts (lat lng : float) (radius_m : Z) (tenant_id : string)
    : M (list NearbyItem) :=
  db <- get_db ;;
  match db with
  | None => not_configured
  | Some _ =>
      cur <- find db_alert (fun a => String.eqb (Alert.tenant_id (val a)) tenant_id) ;;
      for_each (Col.limit 200 (Col.sort (fun a => Alert.created_at (val a)) (-1) cur))
        (nearby_step lat lng radius_m) []
  end.

End Nearby.

(** *** [POST /api/moderation] *)

Definition bad_words : list string := ["hate"; "suicide"; "spam"].

Definition moderate (req : ModerationReq) : ModerationResponse :=
  let flagged := existsb (fun bad => Str.contains bad (Str.lower (text req))) bad_words in
  mkModeration flagged.

(** * Vocabulary of the properties *)

Unset Implicit Arguments.

(** [sub] occurs in [s] as a contiguous run of characters. *)
Definition Substring (sub s : string) : Prop :=
  exists pre post, s = (pre ++ sub ++ post)%string.

(** Identifiers are unique within a collection (the store's index on
    [_id]); the driver's new identifiers keep it so. *)
Definition unique_ids {A} (c : list (Doc A)) : Prop := NoDup (map (@_id A) c).

(** The state of the store after a handler ran on [d]. *)
Definition store_after {A} (m : M A) (d : Database) : option Database :=
  snd (m (Some d)).

(** A persona of tenant [t] already uses handle [h]. *)
Definition handle_taken (d : Database) (t h : string) : Prop :=
  exists p, In p (persona d) /\
            Persona.tenant_id (val p) = t /\ Persona.handle (val p) = h.

(** The documents of a collection that belong to another tenant than [t]. *)
Definition of_others {A} (tenant_of : A -> string) (t : string)
    (c : list (Doc A)) : list (Doc A) :=
  filter (fun x => negb (String.eqb (tenant_of (val x)) t)) c.

Definition is_global (t : string) (r : Doc Room.t) : bool :=
  String.eqb (Room.tenant_id (val r)) t &&
  String.eqb (Room.type (val r)) "global" &&
  String.eqb (Room.name (val r)) "Global".

(** The rooms of tenant [t] with type "global" and name "Global". *)
Definition global_rooms (t : string) (d : Database) : list (Doc Room.t) :=
  filter (is_global t) (room d).

(** The startup hook run twice in a row. *)
Definition bootstrap_twice (now1 : datetime) (id1 : bson.oid)
    (now2 : datetime) (id2 : bson.oid) : M unit :=
  ensure_global_room now1 id1 ;;; ensure_global_room now2 id2.

(** Order by a sort key, and by creation time on returned messages. *)
Definition key_le {D} (key : D -> Z) (x y : D) : Prop := (key x <= key y)%Z.

Definition created_le (x y : WithId Message.t) : Prop :=
  (Message.created_at (doc x) <= Message.created_at (doc y))%Z.

(** The alerts [nearby_alerts] scans: the 200 most recently created ones of
    the tenant, newest first. *)
Definition scanned (t : string) (d : Database) : list (Doc Alert.t) :=
  Col.limit 200
    (Col.sort (fun a => Alert.created_at (val a)) (-1)
       (Col.find (fun a => String.eqb (Alert.tenant_id (val a)) t) (alert d))).

(** ** Sample stores *)

Definition alice_id : bson.oid := "0123456789abcdef00000001".
Definition ikebukuro_id : bson.oid := "0123456789abcdef00000002".
Definition hi_id : bson.oid := "0123456789abcdef00000003".
Definition help_id : bson.oid := "0123456789abcdef00000004".
Definition member_id : bson.oid := "0123456789abcdef00000005".

(** The store after alice is created, the room Ikebukuro is created and
    alice says "  hi  " there. *)
Definition chat_db : Database :=
  mkDb
    [mkDoc alice_id (Persona.mk "default" "alice" None None "A" 1 0 0 1 1 false)]
    [mkDoc ikebukuro_id (Room.mk "default" "Ikebukuro" "city" None None 0 2 2)]
    []
    [mkDoc hi_id (Message.mk "default" ikebukuro_id alice_id "hi" [] 3 3 false)]
    [].

(** [chat_db] once alice has joined Ikebukuro at time 5. *)
Definition joined_db : Database :=
  mkDb (persona chat_db)
    [mkDoc ikebukuro_id (Room.mk "default" "Ikebukuro" "city" None None 1 2 5)]
    [mkDoc member_id (RoomMember.mk "default" ikebukuro_id alice_id 5)]
    (message chat_db) [].

(** A store holding a membership whose [room_id] is not an identifier. *)
Definition stale_member_db : Database :=
  set_roommember [mkDoc member_id (RoomMember.mk "default" "lobby" alice_id 5)] chat_db.

Definition room_b_id : bson.oid := "aaaaaaaaaaaaaaaaaaaaaaaa".
Definition persona_a_id : bson.oid := "bbbbbbbbbbbbbbbbbbbbbbbb".

(** A store whose only document is a room of tenant "b". *)
Definition store_with_room_of_b : option Database :=
  store_after (create_room 100 room_b_id (RoomCreate.mk "Lobby" "topic" None None) "b")
    empty_db.

(** A store in which tenant "default" already has two Global rooms, made
    with [create_room]. *)
Definition store_with_two_globals : option Database :=
  snd ((create_room 10 "111111111111111111111111"
          (RoomCreate.mk "Global" "global" None None) TENANT_DEFAULT ;;;
        create_room 11 "222222222222222222222222"
          (RoomCreate.mk "Global" "global" None None) TENANT_DEFAULT)
       (Some empty_db)).

(** ** Vocabulary of the further properties *)

(** The documents of a collection that belong to tenant [t]. *)
Definition of_tenant {A} (tenant_of : A -> string) (t : string)
    (c : list (Doc A)) : list (Doc A) :=
  filter (fun x => String.eqb (tenant_of (val x)) t) c.

(** [s] begins, and [s] ends, with a whitespace character. *)
Definition starts_with_space (s : string) : bool :=
  match s with
  | EmptyString => false
  | String c _ => Str.is_space c
  end.

Fixpoint ends_with_space (s : string) : bool :=
  match s with
  | EmptyString => false
  | String c EmptyString => Str.is_space c
  | String _ s' => ends_with_space s'
  end.

(** [s] holds whitespace only. *)
Fixpoint all_space (s : string) : bool :=
  match s with
  | EmptyString => true
  | String c s' => Str.is_space c && all_space s'
  end.

(** [chat_db] with a room of tenant "b" beside it. *)
Definition shared_db : Database :=
  set_room
    (room chat_db ++ [mkDoc room_b_id (Room.mk "b" "Lobby" "topic" None None 0 100 100)])
    chat_db.

(** No two personas of one tenant share a handle. *)
Definition handle_key (p : Doc Persona.t) : string * string :=
  (Persona.tenant_id (val p), Persona.handle (val p)).

Definition unique_handles (d : Database) : Prop :=
  NoDup (map handle_key (persona d)).

(** Store [d1] holds the documents of the tenants other than [t] that store
    [d] held, collection by collection. *)
Definition others_kept (t : string) (d d1 : Database) : Prop :=
  of_others Persona.tenant_id t (persona d1) = of_others Persona.tenant_id t (persona d) /\
  of_others Room.tenant_id t (room d1) = of_others Room.tenant_id t (room d) /\
  of_others RoomMember.tenant_id t (roommember d1) =
    of_others RoomMember.tenant_id t (roommember d) /\
  of_others Message.tenant_id t (message d1) = of_others Message.tenant_id t (message d) /\
  of_others Alert.tenant_id t (alert d1) = of_others Alert.tenant_id t (alert d).

(** A computation that neither reads nor writes the store. *)
Definition store_blind {A} (m : M A) : Prop :=
  forall st, m st = (fst (m None), st).

(** Text within the ASCII range, on which the model's [upper], [lower] and
    [strip] are Python's. *)
Definition is_ascii_char (c : ascii) : bool := (nat_of_ascii c <? 128)%nat.

Fixpoint is_ascii (s : string) : bool :=
  match s with
  | EmptyString => true
  | String c s' => is_ascii_char c && is_ascii s'
  end.

(** ** Nearby alerts: vocabulary and samples *)

(** Returned alerts, newest first. *)
Definition newest_first (x y : NearbyItem) : Prop :=
  (Alert.created_at (doc (item y)) <= Alert.created_at (doc (item x)))%Z.

(** The double [nearby_alerts] computes for alert [a] is [dist]. *)
Definition measured (math : Math) (lat lng : float) (a : Doc Alert.t)
    (dist : float) : Prop :=
  haversine math lat lng (get_or_0 (Alert.lat (val a))) (get_or_0 (Alert.lng (val a))) =
    Return dist.

(** Item [it] is alert [a] with its distance: the double computed for [a]
    is within [radius_m], and [distance_m] is that double truncated. *)
Definition kept_as (math : Math) (lat lng : float) (radius_m : Z)
    (a : Doc Alert.t) (it : NearbyItem) : Prop :=
  exists dist,
    measured math lat lng a dist /\
    float_le_int dist radius_m = true /\
    int dist = Return (distance_m it) /\
    item it = to_str_id a.

(** The loop of [nearby_alerts] gets past alert [a]: its distance computes,
    and converts to an integer when it is within [radius_m]. *)
Definition passes (math : Math) (lat lng : float) (radius_m : Z)
    (a : Doc Alert.t) : Prop :=
  exists dist,
    measured math lat lng a dist /\
    (float_le_int dist radius_m = true -> exists n, int dist = Return n).

(** The values the C standard fixes for the math library at zero, and
    Python for [0.0 ** 2]. *)
Definition exact_at_zero (math : Math) : Prop :=
  radians math 0 = Return 0%float /\
  sin math 0 = Return 0%float /\
  cos math 0 = Return 1%float /\
  asin math 0 = Return 0%float /\
  sqrt math 0 = Return 0%float /\
  pow math 0 2 = Return 0%float.

(** A math library for the examples.  [radians] and [sqrt] are the
    platform's; the first terms of their series stand in for [sin], [cos]
    and [asin], which makes them exact at zero, and the square is the one
    power the handler takes. *)
Definition series_math : Math :=
  mkMath
    (fun x => Return (x * 0x1.1df46a2529d39p-6)%float)
    (fun x => Return (1 - x * x / 2)%float)
    (fun x => Return (x - x * x * x / 6)%float)
    (fun x => Return (x + x * x * x / 6)%float)
    (fun x => if (x <? 0)%float then Raise ValueError else Return (PrimFloat.sqrt x))
    (fun x _ => Return (x * x)%float).

(** An alert stored without coordinates. *)
Definition unlocated : Doc Alert.t :=
  mkDoc help_id
    (Alert.mk "default" alice_id "Info" "roadworks" 1000 None None
       "Active" 0 0 0 4 4).

Definition unlocated_db : Database := set_alert [unlocated] chat_db.

(** Identifier number [n], for [n] below 4096. *)
Definition hex_digit (n : nat) : ascii :=
  nth n (list_ascii_of_string "0123456789abcdef") "0"%char.

Definition oid_of_nat (n : nat) : bson.oid :=
  ("000000000000000000000" ++
   String (hex_digit (n / 256))
     (String (hex_digit ((n / 16) mod 16))
        (String (hex_digit (n mod 16)) EmptyString)))%string.

(** Alert number [i], created at time [i] and stored without coordinates. *)
Definition crowd_alert (i : nat) : Doc Alert.t :=
  mkDoc (oid_of_nat i)
    (Alert.mk "default" alice_id "Info" "roadworks" 1000 None None
       "Active" 0 0 0 (Z.of_nat i) (Z.of_nat i)).

(** 201 alerts of tenant "default"; number 0 is the oldest. *)
Definition crowded_db : Database :=
  set_alert (map crowd_alert (seq 0 201)) chat_db.

(** What the loop of [nearby_alerts] keeps of the alerts it goes through,
    when it gets past each of them: an alert within [radius_m] gives an
    item, in the order of the scan, and another alert gives none. *)
Inductive loop_keeps (math : Math) (lat lng : float) (radius_m : Z) :
    list (Doc Alert.t) -> list NearbyItem -> Prop :=
| keeps_none : loop_keeps math lat lng radius_m [] []
| keeps_within a xs it kept :
    kept_as math lat lng radius_m a it ->
    loop_keeps math lat lng radius_m xs kept ->
    loop_keeps math lat lng radius_m (a :: xs) (it :: kept)
| keeps_beyond a xs kept dist :
    measured math lat lng a dist ->
    float_le_int dist radius_m = false ->
    loop_keeps math lat lng radius_m xs kept ->
    loop_keeps math lat lng radius_m (a :: xs) kept.

(** * Lemmas and theorems *)

(** ** Strings *)

Lemma prefix_app sub s :
  String.prefix sub s = true <-> exists post, s = sub ++ post.
Proof.
  revert s; induction sub as [|c sub IH]; intros s.
  - split; [exists s; reflexivity | destruct s; reflexivity].
  - destruct s as [|c' s]; simpl.
    + split; [discriminate | intros [post H]; discriminate].
    + destruct (Ascii.ascii_dec c c') as [->|Hne].
      * rewrite IH. split; intros [post H]; exists post; [now rewrite H | simpl in H; now injection H].
      * split; [discriminate | intros [post H]; simpl in H; congruence].
Qed.

Lemma contains_unfold sub s :
  Str.contains sub s =
  String.prefix sub s ||
  match s with
  | EmptyString => false
  | String _ s' => Str.contains sub s'
  end.
Proof. destruct s; reflexivity. Qed.

Lemma contains_Substring sub s :
  Str.contains sub s = true <-> Substring sub s.
Proof.
  induction s as [|c s IH]; rewrite contains_unfold, orb_true_iff, prefix_app.
  - split.
    + intros [[post H]|H]; [|discriminate]. exists "", post. exact H.
    + intros [pre [post H]]. left. destruct pre; [|discriminate].
      exists post. exact H.
  - rewrite IH. split.
    + intros [[post H]|[pre [post H]]].
      * exists "", post. exact H.
      * exists (String c pre), post. simpl. now rewrite H.
    + intros [pre [post H]]. destruct pre as [|c' pre]; simpl in H.
      * left. now exists post.
      * right. injection H as _ H. now exists pre, post.
Qed.

(** C8: [moderate] flags a text exactly when its lower-cased form contains
    "hate", "suicide" or "spam" as a substring; "this is SPAM" is flagged and
    "hello" is not. *)
Theorem moderate_flagged_iff_bad_word :
  (forall req,
     flagged (moderate req) = true <->
     Substring "hate" (Str.lower (text req)) \/
     Substring "suicide" (Str.lower (text req)) \/
     Substring "spam" (Str.lower (text req))) /\
  flagged (moderate (mkModerationReq "this is SPAM")) = true /\
  flagged (moderate (mkModerationReq "hello")) = false.
Proof.
  split; [|split; reflexivity].
  intros req. unfold moderate, bad_words. cbn [flagged existsb].
  rewrite orb_false_r, !orb_true_iff, !contains_Substring. tauto.
Qed.

(** ** Collections *)

Open Scope list_scope.

Section ColFacts.
Context {D : Type}.
Implicit Types (flt q : D -> bool) (upd g : D -> D) (c : list D).

Lemma find_one_none flt c :
  Col.find_one flt c = None <-> forall x, In x c -> flt x = false.
Proof.
  unfold Col.find_one. split.
  - intros H x Hx. exact (find_none flt c H x Hx).
  - induction c as [|y c IH]; simpl; intros H; [reflexivity|].
    rewrite (H y (or_introl eq_refl)). apply IH. intros x Hx. apply H. now right.
Qed.

Lemma find_one_some flt c x :
  Col.find_one flt c = Some x -> In x c /\ flt x = true.
Proof. apply find_some. Qed.

(** Two updates through one filter that the first update respects act as
    their composition. *)
Lemma update_one_twice flt upd g c :
  (forall x, flt (upd x) = flt x) ->
  Col.update_one flt g (Col.update_one flt upd c) =
  Col.update_one flt (fun x => g (upd x)) c.
Proof.
  intros Hflt. induction c as [|x c IH]; simpl; [reflexivity|].
  destruct (flt x) eqn:E; simpl.
  - now rewrite Hflt, E.
  - now rewrite E, IH.
Qed.

(** A lookup through [q] after an update that respects [q] finds the same
    document, updated or not. *)
Lemma find_one_update_one q flt g c x :
  (forall y, q (g y) = q y) ->
  Col.find_one q c = Some x ->
  exists x', Col.find_one q (Col.update_one flt g c) = Some x' /\ (x' = x \/ x' = g x).
Proof.
  intros Hq. unfold Col.find_one.
  induction c as [|y c IH]; simpl; [discriminate|].
  destruct (flt y) eqn:Ef; simpl.
  - rewrite Hq. destruct (q y) eqn:Eq.
    + intros [= <-]. exists (g y). auto.
    + intros H. exists x. auto.
  - destruct (q y) eqn:Eq.
    + intros [= <-]. exists y. auto.
    + exact IH.
Qed.

Lemma delete_one_length flt c x :
  Col.find_one flt c = Some x ->
  S (List.length (Col.delete_one flt c)) = List.length c.
Proof.
  unfold Col.find_one. induction c as [|y c IH]; simpl; [discriminate|].
  destruct (flt y); [reflexivity|]. intros H. simpl. now rewrite IH.
Qed.

Lemma delete_one_no_match flt c :
  Col.find_one flt c = None -> Col.delete_one flt c = c.
Proof.
  unfold Col.find_one. induction c as [|y c IH]; simpl; [reflexivity|].
  destruct (flt y); [discriminate|]. intros H. now rewrite IH.
Qed.

Lemma update_one_same flt c :
  Col.update_one flt (fun x => x) c = c.
Proof.
  induction c as [|x c IH]; simpl; [reflexivity|].
  destruct (flt x); [reflexivity | now rewrite IH].
Qed.

(** An update through the filter of the lookup is seen by the lookup. *)
Lemma find_one_updated flt g c x :
  (forall y, flt (g y) = flt y) ->
  Col.find_one flt c = Some x ->
  Col.find_one flt (Col.update_one flt g c) = Some (g x).
Proof.
  intros Hg. unfold Col.find_one. induction c as [|y c IH]; simpl; [discriminate|].
  destruct (flt y) eqn:E; simpl.
  - intros [= <-]. now rewrite Hg, E.
  - rewrite E. exact IH.
Qed.

Lemma find_one_app_new flt c x :
  Col.find_one flt c = None -> flt x = true ->
  Col.find_one flt (c ++ [x]) = Some x.
Proof.
  unfold Col.find_one. induction c as [|y c IH]; simpl; intros Hn Hx.
  - now rewrite Hx.
  - destruct (flt y); [discriminate | now apply IH].
Qed.

Lemma filter_nil_of_find_none flt c :
  Col.find_one flt c = None -> filter flt c = [].
Proof.
  unfold Col.find_one. induction c as [|y c IH]; simpl; [reflexivity|].
  destruct (flt y); [discriminate | exact IH].
Qed.

Lemma filter_cons_of_find_some flt c x :
  Col.find_one flt c = Some x -> (1 <= List.length (filter flt c))%nat.
Proof.
  unfold Col.find_one. induction c as [|y c IH]; simpl; [discriminate|].
  destruct (flt y); simpl; [lia | exact IH].
Qed.

End ColFacts.

Lemma oid_eqb_eq (a b : bson.oid) : bson.eqb a b = true <-> a = b.
Proof. apply String.eqb_eq. Qed.

Lemma room_filter_spec rid t r :
  room_filter rid t r = true <-> _id r = rid /\ Room.tenant_id (val r) = t.
Proof.
  unfold room_filter. now rewrite andb_true_iff, oid_eqb_eq, String.eqb_eq.
Qed.

(** With unique identifiers, the room found under a tenant is the one an
    update by [_id] alone changes. *)
Lemma find_room_after_update rid t rooms r g :
  unique_ids rooms ->
  (forall y, _id (g y) = _id y) ->
  (forall y, Room.tenant_id (val (g y)) = Room.tenant_id (val y)) ->
  Col.find_one (room_filter rid t) rooms = Some r ->
  Col.find_one (room_filter rid t) (Col.update_one (room_id_filter rid) g rooms) = Some (g r).
Proof.
  intros Hu Hid Hten. unfold Col.find_one, unique_ids.
  induction rooms as [|y c IH]; simpl; [discriminate|].
  inversion Hu as [|? ? Hnotin Hu']; subst.
  destruct (room_filter rid t y) eqn:Ef.
  - intros [= <-]. apply room_filter_spec in Ef as [Ei Et].
    unfold room_id_filter at 1. rewrite (proj2 (oid_eqb_eq _ _) Ei). simpl.
    assert (room_filter rid t (g y) = true) as ->; [|reflexivity].
    apply room_filter_spec. now rewrite Hid, Hten.
  - intros Hfind. unfold room_id_filter at 1.
    destruct (bson.eqb (_id y) rid) eqn:Ei.
    + exfalso. apply oid_eqb_eq in Ei. apply find_some in Hfind as [Hin Hr].
      apply room_filter_spec in Hr as [Hr _]. apply Hnotin.
      rewrite Ei, <- Hr. now apply in_map.
    + simpl. rewrite Ef. now apply IH.
Qed.

(** ** Running a handler *)

Ltac run_handler :=
  cbv [bind ret raise get_db try_except not_configured ObjectId
       find find_one insert_one insert_one_int update_one upsert_one delete_one
       col_read col_write col_get col_set
       db_persona db_room db_roommember db_message db_alert].

Ltac store_fields :=
  cbv [set_persona set_room set_roommember set_message set_alert];
  cbn [persona room roommember message alert].

Lemma chat_db_reached :
  snd ((create_persona 1 alice_id (PersonaCreate.mk "alice" None None None) "default" ;;;
        create_room 2 ikebukuro_id (RoomCreate.mk "Ikebukuro" "city" None None) "default" ;;;
        send_message 3 hi_id (MessageCreate.mk ikebukuro_id alice_id "  hi  ") "default")
       (Some empty_db)) = Some chat_db.
Proof. vm_compute. reflexivity. Qed.

(** [ObjectId] reads its string as [bytes.fromhex] does: upper-case digits
    give the same bytes, whitespace before a pair of digits is skipped, and
    whitespace inside a pair, another character or another length is
    refused. *)
Lemma ObjectId_reads_hex :
  bson.ObjectId "0123456789ABCDEF00000001" = Some alice_id /\
  bson.ObjectId "aa aa aa aa aa aa aa aa " = Some "aaaaaaaaaaaaaaaa" /\
  bson.ObjectId "a a a a a a a a a a a a " = None /\
  bson.ObjectId "0123456789abcdef0000000g" = None /\
  bson.ObjectId "0123456789abcdef0000001" = None.
Proof. repeat split. Qed.

(** A string of digit pairs and whitespace is an identifier, of nothing
    stored: the handlers answer as for an unknown room or persona. *)
Lemma identifier_with_whitespace :
  list_messages "aa aa aa aa aa aa aa aa " 50 "default" (Some chat_db) =
    (Return [], Some chat_db) /\
  join_room 9 help_id "aa aa aa aa aa aa aa aa " (JoinLeave.mk alice_id) "default"
    (Some chat_db) = (Raise (HTTPException 404 "Room not found"), Some chat_db) /\
  leave_room 9 "aa aa aa aa aa aa aa aa " (JoinLeave.mk alice_id) "default"
    (Some chat_db) = (Return (mkOk true), Some chat_db) /\
  send_message 9 help_id (MessageCreate.mk "aa aa aa aa aa aa aa aa " alice_id "hi")
    "default" (Some chat_db) =
    (Raise (HTTPException 404 "Room not found"), Some chat_db) /\
  create_alert 9 help_id (AlertCreate.mk "aa aa aa aa aa aa aa aa " "Help" "lost" 500 0 0)
    "default" (Some chat_db) =
    (Raise (HTTPException 404 "Persona not found"), Some chat_db).
Proof. repeat split. Qed.

(** *** Personas *)

Lemma handle_filter_spec t h p :
  handle_filter t h p = true <->
  Persona.tenant_id (val p) = t /\ Persona.handle (val p) = h.
Proof. unfold handle_filter. now rewrite andb_true_iff, !String.eqb_eq. Qed.

Lemma handle_taken_find d t h :
  handle_taken d t h <-> Col.find_one (handle_filter t h) (persona d) <> None.
Proof.
  split.
  - intros [p [Hin Hp]] Hnone.
    apply (proj1 (find_one_none _ _) Hnone) in Hin.
    apply handle_filter_spec in Hp. congruence.
  - intros H. destruct (Col.find_one _ _) as [p|] eqn:E; [|congruence].
    apply find_one_some in E as [Hin Hp]. apply handle_filter_spec in Hp.
    now exists p.
Qed.

(** C5: when the handle is taken in tenant [t], [create_persona] for [t]
    raises 400 "Handle already taken" and leaves the store as it was; for a
    tenant in which the handle is not taken it returns the new persona,
    which it has appended to the personas and to nothing else, whatever the
    other tenants hold: the persona carries the new identifier, the tenant,
    the payload's handle, colour and bio, trust level 1, scores 0, both
    timestamps [now] and no ban, and the handle is taken there from then
    on. *)
Theorem create_persona_duplicate_handle
    (d : Database) (now : datetime) (new_id : bson.oid)
    (payload : PersonaCreate.t) (t : string) :
  handle_taken d t (PersonaCreate.handle payload) ->
  create_persona now new_id payload t (Some d) =
    (Raise (HTTPException 400 "Handle already taken"), Some d) /\
  forall t', ~ handle_taken d t' (PersonaCreate.handle payload) ->
    exists c d1,
      create_persona now new_id payload t' (Some d) = (Return c, Some d1) /\
      persona d1 = persona d ++ [created_doc c] /\
      room d1 = room d /\ roommember d1 = roommember d /\
      message d1 = message d /\ alert d1 = alert d /\
      created_id c = bson.str new_id /\
      _id (created_doc c) = new_id /\
      Persona.tenant_id (val (created_doc c)) = t' /\
      Persona.handle (val (created_doc c)) = PersonaCreate.handle payload /\
      Persona.color (val (created_doc c)) = PersonaCreate.color payload /\
      Persona.bio (val (created_doc c)) = PersonaCreate.bio payload /\
      Persona.trust_level (val (created_doc c)) = 1%Z /\
      Persona.score_thanks (val (created_doc c)) = 0%Z /\
      Persona.score_helpful (val (created_doc c)) = 0%Z /\
      Persona.created_at (val (created_doc c)) = now /\
      Persona.updated_at (val (created_doc c)) = now /\
      Persona.is_banned (val (created_doc c)) = false /\
      handle_taken d1 t' (PersonaCreate.handle payload).
Proof.
  intros Htaken. split.
  - apply handle_taken_find in Htaken.
    unfold create_persona. run_handler.
    destruct (Col.find_one _ _); [reflexivity | congruence].
  - intros t' Hfree. rewrite handle_taken_find in Hfree.
    unfold create_persona. run_handler.
    destruct (Col.find_one _ _); [exfalso; apply Hfree; discriminate|].
    eexists _, _. split; [reflexivity|].
    cbn [created_doc created_id val _id set_persona persona room roommember message alert
         Persona.tenant_id Persona.handle Persona.color Persona.bio Persona.trust_level
         Persona.score_thanks Persona.score_helpful Persona.created_at Persona.updated_at
         Persona.is_banned].
    unfold Col.insert_one. repeat (split; [reflexivity|]).
    eexists. split; [apply in_or_app; right; left; reflexivity|].
    split; reflexivity.
Qed.

Lemma create_persona_duplicate_handle_witness :
  create_persona 9 "0123456789abcdef00000009"
    (PersonaCreate.mk "alice" None None None) "default" (Some chat_db) =
    (Raise (HTTPException 400 "Handle already taken"), Some chat_db) /\
  exists c d1,
    create_persona 9 "0123456789abcdef00000009"
      (PersonaCreate.mk "alice" None None None) "other" (Some chat_db) =
      (Return c, Some d1) /\
    persona d1 = persona chat_db ++ [created_doc c] /\
    Persona.tenant_id (val (created_doc c)) = "other" /\
    Persona.handle (val (created_doc c)) = "alice".
Proof.
  destruct (create_persona_duplicate_handle chat_db 9 "0123456789abcdef00000009"
              (PersonaCreate.mk "alice" None None None) "default") as [Hdup Hother].
  - eexists. split; [left; reflexivity|]. split; reflexivity.
  - split; [exact Hdup|].
    destruct (Hother "other") as [c [d1 H]].
    + intros [p [[<-|[]] [Ht _]]]. discriminate Ht.
    + exists c, d1. repeat split; apply H.
Defined.

(** *** Rooms: join and leave *)

Lemma join_room_runs d now new_id room_id payload t rid pid r p :
  bson.ObjectId room_id = Some rid ->
  bson.ObjectId (JoinLeave.persona_id payload) = Some pid ->
  Col.find_one (room_filter rid t) (room d) = Some r ->
  Col.find_one (persona_filter pid t) (persona d) = Some p ->
  join_room now new_id room_id payload t (Some d) =
    (Return (mkOk true),
     Some (mkDb (persona d)
             (Col.update_one (room_id_filter rid) (inc_member_count 1 now) (room d))
             (Col.upsert_one
                (member_filter t room_id (JoinLeave.persona_id payload))
                (fun m => m)
                (mkDoc new_id (RoomMember.mk t room_id (JoinLeave.persona_id payload) now))
                (roommember d))
             (message d) (alert d))).
Proof.
  intros Hrid Hpid Hr Hp. unfold join_room. run_handler.
  rewrite Hrid, Hpid, Hr. store_fields. rewrite Hp. reflexivity.
Qed.

Lemma leave_room_runs d now room_id payload t rid :
  bson.ObjectId room_id = Some rid ->
  leave_room now room_id payload t (Some d) =
    (Return (mkOk true),
     Some (mkDb (persona d)
             (Col.update_one (room_id_filter rid) (inc_member_count (-1) now) (room d))
             (Col.delete_one
                (member_filter t room_id (JoinLeave.persona_id payload)) (roommember d))
             (message d) (alert d))).
Proof.
  intros Hrid. unfold leave_room. run_handler. rewrite Hrid. reflexivity.
Qed.

Lemma inc_then_dec now1 now2 r :
  inc_member_count (-1) now2 (inc_member_count 1 now1 r) = inc_member_count 0 now2 r.
Proof. unfold inc_member_count; simpl. do 2 f_equal. lia. Qed.

(** C2: for a room and a persona that exist in tenant [t], [join_room]
    followed by [leave_room] both return, and the room is found afterwards
    with the [member_count] it had before the join. *)
Theorem join_then_leave_member_count
    (d : Database) (now1 now2 : datetime) (new_id : bson.oid)
    (room_id : string) (payload : JoinLeave.t) (t : string)
    (rid pid : bson.oid) (r : Doc Room.t) (p : Doc Persona.t) :
  bson.ObjectId room_id = Some rid ->
  bson.ObjectId (JoinLeave.persona_id payload) = Some pid ->
  Col.find_one (room_filter rid t) (room d) = Some r ->
  Col.find_one (persona_filter pid t) (persona d) = Some p ->
  exists d1 d2 r2,
    join_room now1 new_id room_id payload t (Some d) = (Return (mkOk true), Some d1) /\
    leave_room now2 room_id payload t (Some d1) = (Return (mkOk true), Some d2) /\
    Col.find_one (room_filter rid t) (room d2) = Some r2 /\
    _id r2 = _id r /\
    Room.member_count (val r2) = Room.member_count (val r) /\
    map (fun x => Room.member_count (val x)) (room d2) =
    map (fun x => Room.member_count (val x)) (room d).
Proof.
  intros Hrid Hpid Hr Hp.
  eexists _, _.
  assert (Hupd : forall rooms,
    Col.update_one (room_id_filter rid) (inc_member_count (-1) now2)
      (Col.update_one (room_id_filter rid) (inc_member_count 1 now1) rooms) =
    Col.update_one (room_id_filter rid) (inc_member_count 0 now2) rooms).
  { intros rooms. rewrite update_one_twice by reflexivity.
    induction rooms as [|x c IH]; simpl; [reflexivity|].
    destruct (room_id_filter rid x); [now rewrite inc_then_dec | now rewrite IH]. }
  destruct (find_one_update_one (room_filter rid t) (room_id_filter rid)
              (inc_member_count 0 now2) (room d) r) as [r2 [Hr2 Hcase]];
    [reflexivity | exact Hr |].
  exists r2.
  split; [exact (join_room_runs d now1 new_id room_id payload t rid pid r p Hrid Hpid Hr Hp)|].
  split; [exact (leave_room_runs _ now2 room_id payload t rid Hrid)|].
  cbn [room]. rewrite Hupd. split; [exact Hr2|].
  split; [destruct Hcase as [->| ->]; reflexivity|].
  split.
  - destruct Hcase as [->| ->]; [reflexivity|]. simpl. lia.
  - clear. induction (room d) as [|x c IH]; simpl; [reflexivity|].
    destruct (room_id_filter rid x); simpl; [f_equal; lia | now rewrite IH].
Qed.

Lemma join_then_leave_member_count_witness :
  exists d1 d2 r2,
    join_room 5 member_id ikebukuro_id (JoinLeave.mk alice_id) "default"
      (Some chat_db) = (Return (mkOk true), Some d1) /\
    leave_room 6 ikebukuro_id (JoinLeave.mk alice_id) "default" (Some d1) =
      (Return (mkOk true), Some d2) /\
    Col.find_one (room_filter ikebukuro_id "default") (room d2) = Some r2 /\
    _id r2 = ikebukuro_id /\
    Room.member_count (val r2) = 0%Z /\
    map (fun x => Room.member_count (val x)) (room d2) = [0%Z].
Proof.
  exact (join_then_leave_member_count chat_db 5 6 member_id
           ikebukuro_id (JoinLeave.mk alice_id) "default" ikebukuro_id alice_id
           (mkDoc ikebukuro_id (Room.mk "default" "Ikebukuro" "city" None None 0 2 2))
           (mkDoc alice_id (Persona.mk "default" "alice" None None "A" 1 0 0 1 1 false))
           eq_refl eq_refl eq_refl eq_refl).
Defined.

(** C7: when the membership already exists, [join_room] leaves the
    [roommember] collection as it is (so [joined_at] is kept and nothing is
    inserted), and the room is found with [member_count] one higher and
    [updated_at] set to the time of the call. *)
Theorem join_room_existing_membership
    (d : Database) (now : datetime) (new_id : bson.oid)
    (room_id : string) (payload : JoinLeave.t) (t : string)
    (rid pid : bson.oid) (r : Doc Room.t) (p : Doc Persona.t)
    (m : Doc RoomMember.t) :
  unique_ids (room d) ->
  bson.ObjectId room_id = Some rid ->
  bson.ObjectId (JoinLeave.persona_id payload) = Some pid ->
  Col.find_one (room_filter rid t) (room d) = Some r ->
  Col.find_one (persona_filter pid t) (persona d) = Some p ->
  Col.find_one (member_filter t room_id (JoinLeave.persona_id payload))
    (roommember d) = Some m ->
  exists d1 r1,
    join_room now new_id room_id payload t (Some d) = (Return (mkOk true), Some d1) /\
    roommember d1 = roommember d /\
    Col.find_one (member_filter t room_id (JoinLeave.persona_id payload))
      (roommember d1) = Some m /\
    Col.find_one (room_filter rid t) (room d1) = Some r1 /\
    Room.member_count (val r1) = (Room.member_count (val r) + 1)%Z /\
    Room.updated_at (val r1) = now.
Proof.
  intros Hu Hrid Hpid Hr Hp Hm.
  eexists _, (inc_member_count 1 now r).
  split; [exact (join_room_runs d now new_id room_id payload t rid pid r p Hrid Hpid Hr Hp)|].
  cbn [room roommember].
  assert (Hsame : Col.upsert_one
            (member_filter t room_id (JoinLeave.persona_id payload)) (fun m0 => m0)
            (mkDoc new_id (RoomMember.mk t room_id (JoinLeave.persona_id payload) now))
            (roommember d) = roommember d).
  { unfold Col.upsert_one. unfold Col.find_one in Hm. rewrite Hm. apply update_one_same. }
  rewrite Hsame. split; [reflexivity|]. split; [exact Hm|].
  split; [|split; reflexivity].
  apply find_room_after_update; auto.
Qed.

(** C9: for a [room_id] that is not an identifier, [leave_room] has already
    deleted the matching membership (the first [roommember] document with the
    request's tenant, [room_id] and [persona_id]) when [ObjectId] raises
    [InvalidId]; that exception is not an [HTTPException], the [room]
    collection is as before, and the store has one membership less when one
    matched. *)
Theorem leave_room_malformed_room_id
    (d : Database) (now : datetime) (room_id : string)
    (payload : JoinLeave.t) (t : string) :
  bson.ObjectId room_id = None ->
  let flt := member_filter t room_id (JoinLeave.persona_id payload) in
  exists d1,
    leave_room now room_id payload t (Some d) = (Raise (InvalidId room_id), Some d1) /\
    (forall code detail, InvalidId room_id <> HTTPException code detail) /\
    roommember d1 = Col.delete_one flt (roommember d) /\
    room d1 = room d /\
    (forall m, Col.find_one flt (roommember d) = Some m ->
       S (List.length (roommember d1)) = List.length (roommember d)) /\
    (Col.find_one flt (roommember d) = None -> d1 = d).
Proof.
  intros Hbad flt.
  exists (set_roommember (Col.delete_one flt (roommember d)) d).
  split.
  { unfold leave_room. run_handler. rewrite Hbad. reflexivity. }
  split; [discriminate|].
  split; [reflexivity|]. split; [reflexivity|]. split.
  - intros m Hm. cbn [set_roommember roommember]. exact (delete_one_length _ _ _ Hm).
  - intros Hnone. unfold set_roommember. rewrite delete_one_no_match by exact Hnone.
    now destruct d.
Qed.

Lemma joined_db_reached :
  store_after
    (join_room 5 member_id ikebukuro_id (JoinLeave.mk alice_id) "default")
    chat_db = Some joined_db.
Proof. vm_compute. reflexivity. Qed.

Lemma join_room_existing_membership_witness :
  exists d1 r1,
    join_room 7 "0123456789abcdef00000007" ikebukuro_id (JoinLeave.mk alice_id) "default"
      (Some joined_db) = (Return (mkOk true), Some d1) /\
    roommember d1 = roommember joined_db /\
    Col.find_one (member_filter "default" ikebukuro_id alice_id) (roommember d1) =
      Some (mkDoc member_id
              (RoomMember.mk "default" ikebukuro_id alice_id 5)) /\
    Col.find_one (room_filter ikebukuro_id "default") (room d1) = Some r1 /\
    Room.member_count (val r1) = 2%Z /\
    Room.updated_at (val r1) = 7%Z.
Proof.
  refine (join_room_existing_membership joined_db 7 "0123456789abcdef00000007"
            ikebukuro_id (JoinLeave.mk alice_id) "default" ikebukuro_id alice_id
            (mkDoc ikebukuro_id (Room.mk "default" "Ikebukuro" "city" None None 1 2 5))
            (mkDoc alice_id (Persona.mk "default" "alice" None None "A" 1 0 0 1 1 false))
            (mkDoc member_id (RoomMember.mk "default" ikebukuro_id alice_id 5))
            _ eq_refl eq_refl eq_refl eq_refl eq_refl).
  unfold unique_ids. simpl. constructor; [simpl; tauto | constructor].
Defined.

Lemma leave_room_malformed_room_id_witness :
  exists d1,
    leave_room 8 "lobby" (JoinLeave.mk alice_id) "default" (Some stale_member_db) =
      (Raise (InvalidId "lobby"), Some d1) /\
    roommember d1 = [] /\
    room d1 = room stale_member_db.
Proof.
  destruct (leave_room_malformed_room_id stale_member_db 8 "lobby"
              (JoinLeave.mk alice_id) "default" eq_refl)
    as [d1 [Hrun [_ [Hmem [Hroom _]]]]].
  exists d1. split; [exact Hrun|]. split; [exact Hmem | exact Hroom].
Defined.

(** *** Tenants *)

(** C1 (fails for [leave_room]): a request of tenant "a" that names a room
    of tenant "b" returns ok and leaves that room with its [member_count]
    decremented and its [updated_at] replaced. *)
Theorem leave_room_writes_other_tenant :
  store_with_room_of_b =
    Some (mkDb [] [mkDoc room_b_id (Room.mk "b" "Lobby" "topic" None None 0 100 100)]
            [] [] []) /\
  leave_room 200 room_b_id (JoinLeave.mk persona_a_id) "a" store_with_room_of_b =
    (Return (mkOk true),
     Some (mkDb [] [mkDoc room_b_id (Room.mk "b" "Lobby" "topic" None None (-1) 100 200)]
             [] [] [])).
Proof. split; vm_compute; reflexivity. Qed.

(** The room update of [leave_room] reaches the room with that [_id]
    whatever its tenant. *)
Lemma leave_room_ignores_tenant d now room_id payload t rid r :
  bson.ObjectId room_id = Some rid ->
  Col.find_one (room_id_filter rid) (room d) = Some r ->
  exists d1,
    leave_room now room_id payload t (Some d) = (Return (mkOk true), Some d1) /\
    Col.find_one (room_id_filter rid) (room d1) = Some (inc_member_count (-1) now r).
Proof.
  intros Hrid Hr. eexists. split; [exact (leave_room_runs d now room_id payload t rid Hrid)|].
  cbn [room]. now apply find_one_updated.
Qed.

(** With unique identifiers, an update by [_id] of a room found under
    tenant [t] leaves the rooms of the other tenants as they were. *)
Lemma update_by_id_others rid t rooms r g :
  unique_ids rooms ->
  (forall y, Room.tenant_id (val (g y)) = Room.tenant_id (val y)) ->
  Col.find_one (room_filter rid t) rooms = Some r ->
  of_others Room.tenant_id t (Col.update_one (room_id_filter rid) g rooms) =
  of_others Room.tenant_id t rooms.
Proof.
  intros Hu Hten. unfold Col.find_one, unique_ids, of_others.
  induction rooms as [|y c IH]; simpl; [discriminate|].
  inversion Hu as [|? ? Hnotin Hu']; subst.
  unfold room_id_filter at 1. destruct (room_filter rid t y) eqn:Ef.
  - intros _. apply room_filter_spec in Ef as [Ei Et].
    rewrite (proj2 (oid_eqb_eq _ _) Ei). simpl.
    now rewrite Hten, Et, String.eqb_refl.
  - intros Hfind. destruct (bson.eqb (_id y) rid) eqn:Ei.
    + exfalso. apply oid_eqb_eq in Ei. apply find_some in Hfind as [Hin Hr].
      apply room_filter_spec in Hr as [Hr _]. apply Hnotin.
      rewrite Ei, <- Hr. now apply in_map.
    + simpl. now rewrite (IH Hu' Hfind).
Qed.

Lemma upsert_member_others t room_id persona_id new_id now c :
  of_others RoomMember.tenant_id t
    (Col.upsert_one (member_filter t room_id persona_id) (fun m => m)
       (mkDoc new_id (RoomMember.mk t room_id persona_id now)) c) =
  of_others RoomMember.tenant_id t c.
Proof.
  unfold Col.upsert_one. destruct (List.find _ c).
  - now rewrite update_one_same.
  - unfold of_others. rewrite filter_app. simpl.
    rewrite String.eqb_refl. apply app_nil_r.
Qed.

(** X13: [join_room], which looks the room up under the tenant first,
    leaves the documents of every other tenant as they were, whatever it
    answers. *)
Lemma join_room_keeps_other_tenants d now new_id room_id payload t out st :
  unique_ids (room d) ->
  join_room now new_id room_id payload t (Some d) = (out, st) ->
  exists d1,
    st = Some d1 /\
    of_others Room.tenant_id t (room d1) = of_others Room.tenant_id t (room d) /\
    of_others RoomMember.tenant_id t (roommember d1) =
      of_others RoomMember.tenant_id t (roommember d) /\
    persona d1 = persona d /\ message d1 = message d /\ alert d1 = alert d.
Proof.
  intros Hu. unfold join_room. run_handler.
  assert (Hsame : forall e : Exn, (Raise e, Some d) = (out, st) ->
            exists d1, st = Some d1 /\
              of_others Room.tenant_id t (room d1) = of_others Room.tenant_id t (room d) /\
              of_others RoomMember.tenant_id t (roommember d1) =
                of_others RoomMember.tenant_id t (roommember d) /\
              persona d1 = persona d /\ message d1 = message d /\ alert d1 = alert d).
  { intros e H. injection H as _ <-. exists d. now repeat split. }
  destruct (bson.ObjectId room_id) as [rid|]; [|apply Hsame].
  destruct (bson.ObjectId (JoinLeave.persona_id payload)) as [pid|]; [|apply Hsame].
  destruct (Col.find_one (room_filter rid t) (room d)) as [r|] eqn:Er; [|apply Hsame].
  destruct (Col.find_one (persona_filter pid t) (persona d)) as [p|] eqn:Ep; [|apply Hsame].
  store_fields. intros H. injection H as _ <-. eexists. split; [reflexivity|].
  cbn [room roommember persona message alert].
  split; [|split; [apply upsert_member_others | now repeat split]].
  now apply (update_by_id_others rid t (room d) r).
Qed.

(** *** Bootstrap *)

Lemma ensure_global_room_present d now new_id r :
  Col.find_one global_room_filter (room d) = Some r ->
  ensure_global_room now new_id (Some d) = (Return tt, Some d).
Proof. intros H. unfold ensure_global_room. run_handler. now rewrite H. Qed.

Lemma ensure_global_room_absent d now new_id :
  Col.find_one global_room_filter (room d) = None ->
  ensure_global_room now new_id (Some d) =
    (Return tt,
     Some (set_room
             (room d ++ [mkDoc new_id (Room.mk TENANT_DEFAULT "Global" "global" None None 0 now now)])
             d)).
Proof. intros H. unfold ensure_global_room. run_handler. now rewrite H. Qed.

(** Without storage the hook returns at once. *)
Lemma ensure_global_room_no_db now new_id :
  ensure_global_room now new_id None = (Return tt, None).
Proof. reflexivity. Qed.

(** C4, as the code has it: bootstrap concerns the tenant "default" alone.
    On a store that holds at most one Global room of that tenant, two runs in
    a row leave exactly one; the second run changes nothing, and the Global
    rooms of every other tenant are those the store had before. *)
Theorem bootstrap_twice_default_tenant
    (d : Database) (now1 now2 : datetime) (id1 id2 : bson.oid) :
  (List.length (global_rooms TENANT_DEFAULT d) <= 1)%nat ->
  exists d1,
    ensure_global_room now1 id1 (Some d) = (Return tt, Some d1) /\
    ensure_global_room now2 id2 (Some d1) = (Return tt, Some d1) /\
    bootstrap_twice now1 id1 now2 id2 (Some d) = (Return tt, Some d1) /\
    List.length (global_rooms TENANT_DEFAULT d1) = 1%nat /\
    (forall t, t <> TENANT_DEFAULT -> global_rooms t d1 = global_rooms t d).
Proof.
  intros Hle. unfold bootstrap_twice, bind.
  destruct (Col.find_one global_room_filter (room d)) as [r|] eqn:E.
  - exists d. rewrite !(ensure_global_room_present d _ _ r E).
    repeat split; try reflexivity.
    apply filter_cons_of_find_some in E.
    change (filter global_room_filter (room d)) with (global_rooms TENANT_DEFAULT d) in E.
    lia.
  - set (g := mkDoc id1 (Room.mk TENANT_DEFAULT "Global" "global" None None 0 now1 now1)).
    exists (set_room (room d ++ [g]) d).
    assert (E1 : Col.find_one global_room_filter (room (set_room (room d ++ [g]) d)) = Some g).
    { cbn [set_room room]. now apply find_one_app_new. }
    rewrite (ensure_global_room_absent d now1 id1 E).
    fold g. rewrite !(ensure_global_room_present _ now2 id2 g E1).
    repeat split; try reflexivity.
    + unfold global_rooms. cbn [set_room room]. rewrite filter_app.
      change (is_global TENANT_DEFAULT) with global_room_filter.
      rewrite (filter_nil_of_find_none _ _ E). reflexivity.
    + intros t Ht. unfold global_rooms. cbn [set_room room]. rewrite filter_app.
      assert (is_global t g = false) as Hg.
      { unfold is_global, g; cbn [val Room.tenant_id].
        destruct (String.eqb_spec TENANT_DEFAULT t); [congruence | reflexivity]. }
      simpl. rewrite Hg. apply app_nil_r.
Qed.

Lemma bootstrap_twice_default_tenant_witness :
  exists d1,
    ensure_global_room 1 "333333333333333333333333" (Some empty_db) = (Return tt, Some d1) /\
    ensure_global_room 2 "444444444444444444444444" (Some d1) = (Return tt, Some d1) /\
    bootstrap_twice 1 "333333333333333333333333" 2 "444444444444444444444444" (Some empty_db)
      = (Return tt, Some d1) /\
    List.length (global_rooms TENANT_DEFAULT d1) = 1%nat /\
    (forall t, t <> TENANT_DEFAULT -> global_rooms t d1 = global_rooms t empty_db).
Proof.
  apply (bootstrap_twice_default_tenant empty_db 1 2
           "333333333333333333333333" "444444444444444444444444").
  simpl. lia.
Defined.

(** C4 fails as stated: after two runs tenant "b", which has a room, has no
    Global room; and a tenant "default" that had two Global rooms still has
    two. *)
Lemma bootstrap_twice_counterexample :
  (exists d2,
     bootstrap_twice 1 "333333333333333333333333" 2 "444444444444444444444444"
       store_with_room_of_b = (Return tt, Some d2) /\
     List.length (global_rooms "b" d2) = 0%nat /\
     List.length (global_rooms "default" d2) = 1%nat) /\
  (exists d2,
     bootstrap_twice 1 "333333333333333333333333" 2 "444444444444444444444444"
       store_with_two_globals = (Return tt, Some d2) /\
     List.length (global_rooms "default" d2) = 2%nat).
Proof.
  split; eexists; (split; [vm_compute; reflexivity|]); vm_compute; auto.
Qed.

(** *** Cursors: sort and limit *)

Section SortFacts.
Context {D : Type}.
Variable key : D -> Z.

Lemma sort_insert_in direction x l y :
  In y (Col.sort_insert key direction x l) <-> y = x \/ In y l.
Proof.
  induction l as [|z l IH]; simpl.
  - intuition auto.
  - destruct (Col.before key direction x z); simpl; [intuition auto|].
    rewrite IH. intuition auto.
Qed.

Lemma sort_in direction l y :
  In y (Col.sort key direction l) <-> In y l.
Proof.
  induction l as [|z l IH]; simpl; [tauto|].
  rewrite sort_insert_in, IH. intuition auto.
Qed.

Lemma sort_insert_length direction x l :
  List.length (Col.sort_insert key direction x l) = S (List.length l).
Proof.
  induction l as [|y l IH]; simpl; [reflexivity|].
  destruct (Col.before key direction x y); simpl; [reflexivity | now rewrite IH].
Qed.

Lemma sort_length direction l :
  List.length (Col.sort key direction l) = List.length l.
Proof.
  induction l as [|z l IH]; simpl; [reflexivity|].
  now rewrite sort_insert_length, IH.
Qed.

Lemma sort_insert_ascending x l :
  StronglySorted (key_le key) l -> StronglySorted (key_le key) (Col.sort_insert key 1 x l).
Proof.
  induction 1 as [|y l Hs IH Hall]; simpl.
  - constructor; constructor.
  - unfold Col.before; simpl. destruct (Z.leb_spec (key x) (key y)) as [Hle|Hgt].
    + constructor; [constructor; assumption|].
      constructor; [exact Hle|].
      apply Forall_forall. intros z Hz.
      rewrite Forall_forall in Hall. specialize (Hall z Hz).
      unfold key_le in *. lia.
    + constructor; [exact IH|].
      apply Forall_forall. intros z Hz. apply sort_insert_in in Hz as [->|Hz].
      * unfold key_le. lia.
      * rewrite Forall_forall in Hall. now apply Hall.
Qed.

Lemma sort_ascending l : StronglySorted (key_le key) (Col.sort key 1 l).
Proof.
  induction l as [|x l IH]; simpl; [constructor|].
  now apply sort_insert_ascending.
Qed.

End SortFacts.

Section LimitFacts.
Context {D : Type}.

Lemma firstn_in n (l : list D) y : In y (firstn n l) -> In y l.
Proof.
  revert n. induction l as [|x l IH]; intros [|n]; simpl; try tauto.
  intros [->|H]; [now left | right; now apply (IH n)].
Qed.

Lemma firstn_sorted (R : D -> D -> Prop) n l :
  StronglySorted R l -> StronglySorted R (firstn n l).
Proof.
  intros Hs. revert n. induction Hs as [|x l Hs IH Hall]; intros [|n]; simpl;
    try constructor.
  - apply IH.
  - apply Forall_forall. intros y Hy. rewrite Forall_forall in Hall.
    apply Hall. now apply (firstn_in n).
Qed.

Lemma limit_sorted (R : D -> D -> Prop) n l :
  StronglySorted R l -> StronglySorted R (Col.limit n l).
Proof.
  intros Hs. unfold Col.limit. destruct (n =? 0)%Z; [exact Hs|].
  now apply firstn_sorted.
Qed.

Lemma limit_in n (l : list D) y : In y (Col.limit n l) -> In y l.
Proof.
  unfold Col.limit. destruct (n =? 0)%Z; [auto|]. apply firstn_in.
Qed.

Lemma limit_positive_length n (l : list D) :
  (0 < n)%Z -> (Z.of_nat (List.length (Col.limit n l)) <= n)%Z.
Proof.
  intros Hn. unfold Col.limit. destruct (Z.eqb_spec n 0); [lia|].
  pose proof (firstn_le_length (Z.abs_nat n) l). lia.
Qed.

Lemma limit_zero (l : list D) : Col.limit 0 l = l.
Proof. reflexivity. Qed.

End LimitFacts.

(** *** Messages *)

Lemma to_str_id_sorted (l : list (Doc Message.t)) :
  StronglySorted (key_le (fun m => Message.created_at (val m))) l ->
  StronglySorted created_le (map to_str_id l).
Proof.
  induction 1 as [|x l Hs IH Hall]; simpl; constructor; [exact IH|].
  apply Forall_forall. intros y Hy. apply in_map_iff in Hy as [z [<- Hz]].
  rewrite Forall_forall in Hall. exact (Hall z Hz).
Qed.

Lemma list_messages_runs d room_id limit t rid :
  bson.ObjectId room_id = Some rid ->
  list_messages room_id limit t (Some d) =
    (Return (map to_str_id
               (Col.limit limit
                  (Col.sort (fun m => Message.created_at (val m)) 1
                     (Col.find (message_filter t room_id) (message d))))),
     Some d).
Proof. intros H. unfold list_messages. run_handler. now rewrite H. Qed.

(** C6, as the code has it: for a well-formed [room_id], [list_messages]
    returns stored messages of the tenant with that [room_id], in
    non-decreasing [created_at] order; a positive [limit] caps their number,
    and [limit] 0 returns them all.  A malformed [room_id] raises 400
    "Invalid room id". *)
Theorem list_messages_sorted_capped
    (d : Database) (room_id : string) (limit : Z) (t : string) :
  (bson.ObjectId room_id <> None ->
   exists items,
     list_messages room_id limit t (Some d) = (Return items, Some d) /\
     StronglySorted created_le items /\
     (forall x, In x items ->
        exists m, In m (message d) /\ message_filter t room_id m = true /\
                  x = to_str_id m) /\
     ((0 < limit)%Z -> (Z.of_nat (List.length items) <= limit)%Z) /\
     (limit = 0%Z ->
        List.length items =
        List.length (Col.find (message_filter t room_id) (message d)))) /\
  (bson.ObjectId room_id = None ->
   list_messages room_id limit t (Some d) =
     (Raise (HTTPException 400 "Invalid room id"), Some d)).
Proof.
  split.
  - intros Hok. destruct (bson.ObjectId room_id) as [rid|] eqn:E; [|congruence].
    eexists. split; [exact (list_messages_runs d room_id limit t rid E)|].
    split; [|split; [|split]].
    + apply to_str_id_sorted, limit_sorted, sort_ascending.
    + intros x Hx. apply in_map_iff in Hx as [m [<- Hm]].
      apply limit_in in Hm. apply sort_in in Hm. apply filter_In in Hm as [Hin Hf].
      exists m. auto.
    + intros Hpos. rewrite length_map. now apply limit_positive_length.
    + intros ->. now rewrite length_map, limit_zero, sort_length.
  - intros Hbad. unfold list_messages. run_handler. now rewrite Hbad.
Qed.

Lemma list_messages_sorted_capped_witness :
  (exists items,
     list_messages ikebukuro_id 1 "default" (Some chat_db) = (Return items, Some chat_db) /\
     StronglySorted created_le items /\
     (forall x, In x items ->
        exists m, In m (message chat_db) /\
                  message_filter "default" ikebukuro_id m = true /\ x = to_str_id m) /\
     ((0 < 1)%Z -> (Z.of_nat (List.length items) <= 1)%Z) /\
     (1%Z = 0%Z ->
        List.length items =
        List.length (Col.find (message_filter "default" ikebukuro_id) (message chat_db)))) /\
  list_messages "lobby" 1 "default" (Some chat_db) =
    (Raise (HTTPException 400 "Invalid room id"), Some chat_db).
Proof.
  split.
  - apply (proj1 (list_messages_sorted_capped chat_db ikebukuro_id 1 "default")).
    vm_compute. discriminate.
  - apply (proj2 (list_messages_sorted_capped chat_db "lobby" 1 "default")).
    vm_compute. reflexivity.
Defined.

(** C6 fails as stated: with [limit] 0 the one message of the room is
    returned, which is more than 0 items. *)
Lemma list_messages_limit_counterexample :
  bson.ObjectId ikebukuro_id <> None /\
  list_messages ikebukuro_id 0 "default" (Some chat_db) =
    (Return [mkWithId hi_id (Message.mk "default" ikebukuro_id alice_id "hi" [] 3 3 false)],
     Some chat_db) /\
  ~ (Z.of_nat
       (List.length
          [mkWithId hi_id (Message.mk "default" ikebukuro_id alice_id "hi" [] 3 3 false)])
     <= 0)%Z.
Proof.
  split; [vm_compute; discriminate|]. split; [vm_compute; reflexivity|].
  simpl. lia.
Qed.

(** *** Nearby alerts *)

Lemma store_blind_ret {A} (a : A) : store_blind (ret a).
Proof. intros st. reflexivity. Qed.

Lemma store_blind_raise {A} (e : Exn) : store_blind (@raise A e).
Proof. intros st. reflexivity. Qed.

Lemma store_blind_call {A} (o : Outcome A) : store_blind (call o).
Proof. intros st. reflexivity. Qed.

Lemma store_blind_bind {A B} (m : M A) (k : A -> M B) :
  store_blind m -> (forall a, store_blind (k a)) -> store_blind (bind m k).
Proof.
  intros Hm Hk st. unfold bind.
  pose proof (Hm st) as H1. pose proof (Hm None) as H0.
  destruct (m None) as [o s0] eqn:E0. cbn [fst] in H0, H1.
  injection H0 as ->. rewrite H1.
  destruct o as [a|e]; [|reflexivity]. cbn [fst]. apply (Hk a st).
Qed.

Lemma store_blind_for_each {A B} (body : B -> A -> M B) (xs : list A) :
  (forall acc x, store_blind (body acc x)) ->
  forall acc, store_blind (for_each xs body acc).
Proof.
  intros Hbody. induction xs as [|x xs IH]; intros acc; cbn [for_each].
  - apply store_blind_ret.
  - apply store_blind_bind; [apply Hbody | exact IH].
Qed.

Lemma store_blind_nearby_step math lat lng radius_m items a :
  store_blind (nearby_step math lat lng radius_m items a).
Proof.
  unfold nearby_step. apply store_blind_bind; [apply store_blind_call|].
  intros dist. destruct (float_le_int dist radius_m); [|apply store_blind_ret].
  apply store_blind_bind; [apply store_blind_call | intros n; apply store_blind_ret].
Qed.

Lemma nearby_alerts_runs math d lat lng radius_m t :
  nearby_alerts math lat lng radius_m t (Some d) =
    for_each (scanned t d) (nearby_step math lat lng radius_m) [] (Some d).
Proof. reflexivity. Qed.

(** What [nearby_alerts] answers is decided by the alerts it scans, and the
    store is as before whether it returns or raises. *)
Lemma nearby_alerts_scanned math d lat lng radius_m t :
  nearby_alerts math lat lng radius_m t (Some d) =
    (fst (for_each (scanned t d) (nearby_step math lat lng radius_m) [] None), Some d).
Proof.
  rewrite nearby_alerts_runs.
  apply (store_blind_for_each (nearby_step math lat lng radius_m) (scanned t d)
           (store_blind_nearby_step math lat lng radius_m) []).
Qed.

Lemma to_str_id_inj {A} (x y : Doc A) : to_str_id x = to_str_id y -> x = y.
Proof.
  destruct x as [i v], y as [j w]. unfold to_str_id, bson.str. cbn [_id val].
  now intros [= -> ->].
Qed.

Lemma scanned_in t d a :
  In a (scanned t d) -> In a (alert d) /\ Alert.tenant_id (val a) = t.
Proof.
  unfold scanned. intros H. apply limit_in in H. apply sort_in in H.
  apply filter_In in H as [Hin Ht]. split; [exact Hin | now apply String.eqb_eq].
Qed.

Lemma scanned_length t d : (List.length (scanned t d) <= 200)%nat.
Proof.
  pose proof (limit_positive_length 200
                (Col.sort (fun a => Alert.created_at (val a)) (-1)
                   (Col.find (fun a => String.eqb (Alert.tenant_id (val a)) t) (alert d))))
    as H.
  unfold scanned. lia.
Qed.

Lemma nearby_step_runs math lat lng radius_m items a st :
  nearby_step math lat lng radius_m items a st =
    match haversine math lat lng (get_or_0 (Alert.lat (val a)))
            (get_or_0 (Alert.lng (val a))) with
    | Raise e => (Raise e, st)
    | Return dist =>
        if float_le_int dist radius_m
        then match int dist with
             | Return n => (Return (items ++ [mkNearby (to_str_id a) n]), st)
             | Raise e => (Raise e, st)
             end
        else (Return items, st)
    end.
Proof.
  unfold nearby_step, bind, call, ret.
  destruct (haversine _ _ _ _ _) as [dist|e]; [|reflexivity].
  destruct (float_le_int dist radius_m); [|reflexivity].
  destruct (int dist); reflexivity.
Qed.

(** The loop returns exactly when it gets past every alert, and then with
    what it keeps of them. *)
Lemma nearby_loop_returns math lat lng radius_m xs :
  forall acc items st st',
    for_each xs (nearby_step math lat lng radius_m) acc st = (Return items, st') ->
    exists kept, items = acc ++ kept /\ loop_keeps math lat lng radius_m xs kept.
Proof.
  induction xs as [|a xs IH]; intros acc items st st'; cbn [for_each].
  - intros [= <- _]. exists []. split; [now rewrite app_nil_r | constructor].
  - unfold bind. rewrite nearby_step_runs.
    destruct (haversine _ _ _ _ _) as [dist|e] eqn:Ed; [|discriminate].
    destruct (float_le_int dist radius_m) eqn:Ele.
    + destruct (int dist) as [n|e] eqn:En; [|discriminate].
      intros H. apply IH in H as [kept [-> Hk]].
      exists (mkNearby (to_str_id a) n :: kept). split; [now rewrite <- app_assoc|].
      apply keeps_within; [|exact Hk]. exists dist. now repeat split.
    + intros H. apply IH in H as [kept [-> Hk]].
      exists kept. split; [reflexivity|]. now apply keeps_beyond with dist.
Qed.

Lemma nearby_loop_keeps math lat lng radius_m xs kept :
  loop_keeps math lat lng radius_m xs kept ->
  forall acc st,
    for_each xs (nearby_step math lat lng radius_m) acc st = (Return (acc ++ kept), st).
Proof.
  induction 1 as [|a xs it kept [dist [Hd [Hle [Hn Hit]]]] Hk IH
                  |a xs kept dist Hd Hle Hk IH]; intros acc st; cbn [for_each].
  - unfold ret. now rewrite app_nil_r.
  - unfold bind. rewrite nearby_step_runs. unfold measured in Hd.
    rewrite Hd, Hle, Hn, IH. rewrite <- app_assoc. cbn [app].
    destruct it as [i n]. cbn [item distance_m] in *. now rewrite Hit.
  - unfold bind. rewrite nearby_step_runs. unfold measured in Hd.
    rewrite Hd, Hle. apply IH.
Qed.

Lemma loop_keeps_passes math lat lng radius_m xs kept :
  loop_keeps math lat lng radius_m xs kept ->
  Forall (passes math lat lng radius_m) xs.
Proof.
  induction 1 as [|a xs it kept [dist [Hd [Hle [Hn Hit]]]] Hk IH
                  |a xs kept dist Hd Hle Hk IH]; constructor; try exact IH.
  - exists dist. split; [exact Hd|]. intros _. now exists (distance_m it).
  - exists dist. split; [exact Hd|]. congruence.
Qed.

Lemma passes_loop_keeps math lat lng radius_m xs :
  Forall (passes math lat lng radius_m) xs ->
  exists kept, loop_keeps math lat lng radius_m xs kept.
Proof.
  induction 1 as [|a xs [dist [Hd Hn]] _ [kept Hk]]; [exists []; constructor|].
  destruct (float_le_int dist radius_m) eqn:Ele.
  - destruct (Hn eq_refl) as [n En].
    exists (mkNearby (to_str_id a) n :: kept).
    apply keeps_within; [|exact Hk]. exists dist. now repeat split.
  - exists kept. now apply keeps_beyond with dist.
Qed.

Lemma loop_keeps_from math lat lng radius_m xs kept :
  loop_keeps math lat lng radius_m xs kept ->
  forall it, In it kept -> exists a, In a xs /\ kept_as math lat lng radius_m a it.
Proof.
  induction 1 as [|a xs it kept Hit Hk IH|a xs kept dist Hd Hle Hk IH]; intros x Hx.
  - destruct Hx.
  - destruct Hx as [<-|Hx].
    + exists a. split; [now left | exact Hit].
    + destruct (IH x Hx) as [b [Hb Hkb]]. exists b. split; [now right | exact Hkb].
  - destruct (IH x Hx) as [b [Hb Hkb]]. exists b. split; [now right | exact Hkb].
Qed.

Lemma loop_keeps_of math lat lng radius_m xs kept :
  loop_keeps math lat lng radius_m xs kept ->
  forall a, In a xs ->
    exists dist, measured math lat lng a dist /\
      (float_le_int dist radius_m = true ->
       exists it, In it kept /\ kept_as math lat lng radius_m a it).
Proof.
  induction 1 as [|a xs it kept Hit Hk IH|a xs kept dist Hd Hle Hk IH]; intros b Hb.
  - destruct Hb.
  - destruct Hb as [<-|Hb].
    + destruct Hit as [dist [Hd Hrest]]. exists dist. split; [exact Hd|].
      intros _. exists it. split; [now left | now exists dist].
    + destruct (IH b Hb) as [dist [Hd Hin]]. exists dist. split; [exact Hd|].
      intros Hle. destruct (Hin Hle) as [x [Hx Hkx]]. exists x. split; [now right | exact Hkx].
  - destruct Hb as [<-|Hb].
    + exists dist. split; [exact Hd|]. congruence.
    + exact (IH b Hb).
Qed.

Lemma loop_keeps_length math lat lng radius_m xs kept :
  loop_keeps math lat lng radius_m xs kept -> (List.length kept <= List.length xs)%nat.
Proof. induction 1; cbn [List.length]; lia. Qed.

Lemma nearby_alerts_returns math d lat lng radius_m t items st :
  nearby_alerts math lat lng radius_m t (Some d) = (Return items, st) ->
  st = Some d /\ loop_keeps math lat lng radius_m (scanned t d) items.
Proof.
  rewrite nearby_alerts_scanned. intros [= H <-]. split; [reflexivity|].
  destruct (for_each (scanned t d) (nearby_step math lat lng radius_m) [] None)
    as [out st0] eqn:E.
  cbn [fst] in H. subst out.
  apply nearby_loop_returns in E as [kept [-> Hk]]. exact Hk.
Qed.

(** *** Doubles against integers *)

(** The comparison is exact, beyond the integers a double can hold too, and
    the conversion truncates towards zero. *)
Lemma float_le_int_exact :
  float_le_int 2.5 2 = false /\ float_le_int 2.5 3 = true /\
  float_le_int (-2.5) (-3) = false /\ float_le_int (-2.5) (-2) = true /\
  float_le_int 9007199254740992 9007199254740993 = true /\
  float_le_int 9007199254740994 9007199254740993 = false /\
  float_le_int nan 0 = false /\
  float_le_int infinity (2 ^ 2000) = false /\
  float_le_int neg_infinity (- 2 ^ 2000) = true.
Proof. repeat split. Qed.

Lemma int_truncates :
  int 2.5 = Return 2%Z /\ int (-2.5) = Return (-2)%Z /\
  int 0.75 = Return 0%Z /\ int (-0.75) = Return 0%Z /\
  int 6371000 = Return 6371000%Z /\
  int nan = Raise ValueError /\
  int infinity = Raise OverflowError /\ int neg_infinity = Raise OverflowError.
Proof. repeat split. Qed.

Lemma fits_int64_bounds :
  fits_int64 (2 ^ 63 - 1) = true /\ fits_int64 (2 ^ 63) = false /\
  fits_int64 (- 2 ^ 63) = true /\ fits_int64 (- 2 ^ 63 - 1) = false.
Proof. repeat split. Qed.



Lemma int_le x n k :
  float_le_int x n = true -> int x = Return k -> (k <= n)%Z.
Proof.
  unfold float_le_int, int. destruct (Prim2SF x) as [s|s| |s m e]; intros H Hk;
    try discriminate.
  - injection Hk as <-. now apply Z.leb_le in H.
  - injection Hk as <-. destruct (0 <=? e)%Z eqn:Ee; apply Z.leb_le in H.
    + destruct s; [|exact H].
      change (Z.neg m) with (- Z.pos m)%Z in H. now rewrite Z.mul_opp_l in H.
    + apply Z.leb_gt in Ee.
      assert (Hp : (0 < 2 ^ (- e))%Z) by (apply Z.pow_pos_nonneg; lia).
      destruct s.
      * change (Z.neg m) with (- Z.pos m)%Z in H.
        assert (- n <= Z.pos m / 2 ^ (- e))%Z; [|lia].
        apply Z.div_le_lower_bound; [exact Hp | lia].
      * apply Z.div_le_upper_bound; [exact Hp | lia].
Qed.

(** When the request returns, the double computed for a scanned alert
    decides whether the alert is in the result, and with which distance. *)
Lemma nearby_alerts_decides math d lat lng radius_m t a items st :
  In a (scanned t d) ->
  nearby_alerts math lat lng radius_m t (Some d) = (Return items, st) ->
  exists dist,
    measured math lat lng a dist /\
    ((exists n, In (mkNearby (to_str_id a) n) items) <->
     float_le_int dist radius_m = true) /\
    (forall n, In (mkNearby (to_str_id a) n) items -> int dist = Return n).
Proof.
  intros Ha Hrun.
  apply nearby_alerts_returns in Hrun as [_ Hk].
  destruct (loop_keeps_of _ _ _ _ _ _ Hk a Ha) as [dist [Hd Hin]].
  assert (Hitem : forall n, In (mkNearby (to_str_id a) n) items ->
            float_le_int dist radius_m = true /\ int dist = Return n).
  { intros n Hn.
    destruct (loop_keeps_from _ _ _ _ _ _ Hk _ Hn) as [b [_ [dist' [Hd' [Hle [Hint Hit]]]]]].
    cbn [item distance_m] in Hit, Hint. apply to_str_id_inj in Hit. subst b.
    unfold measured in Hd, Hd'. rewrite Hd in Hd'. injection Hd' as <-. now split. }
  exists dist. split; [exact Hd|]. split; [split|].
  - intros [n Hn]. exact (proj1 (Hitem n Hn)).
  - intros Hle. destruct (Hin Hle) as [it [Hit [dist' [_ [_ [_ Hid]]]]]].
    exists (distance_m it). destruct it as [i n]. cbn [item distance_m] in *. now subst i.
  - intros n Hn. exact (proj2 (Hitem n Hn)).
Qed.

(** C10, as the code has it: for an alert among those the request scans,
    a missing [lat] is read as latitude 0 and a missing [lng] as longitude
    0, the other coordinate being the stored one; when the request returns,
    the double [haversine] computed from the query point to that place
    decides: the alert is in the result exactly when that double is within
    [radius_m], and its [distance_m] is that double truncated. *)
Theorem nearby_alerts_missing_coordinates
    (math : Math) (d : Database) (lat lng : float) (radius_m : Z) (t : string)
    (a : Doc Alert.t) (items : list NearbyItem) (st : option Database) :
  In a (scanned t d) ->
  nearby_alerts math lat lng radius_m t (Some d) = (Return items, st) ->
  let lat_a := match Alert.lat (val a) with Some x => x | None => 0%float end in
  let lng_a := match Alert.lng (val a) with Some y => y | None => 0%float end in
  exists dist,
    haversine math lat lng lat_a lng_a = Return dist /\
    ((exists n, In (mkNearby (to_str_id a) n) items) <->
     float_le_int dist radius_m = true) /\
    (forall n, In (mkNearby (to_str_id a) n) items -> int dist = Return n).
Proof.
  intros Ha Hrun lat_a lng_a.
  exact (nearby_alerts_decides math d lat lng radius_m t a items st Ha Hrun).
Qed.

Lemma nearby_alerts_missing_coordinates_witness :
  exists dist,
    haversine series_math 0 0 0 0 = Return dist /\
    ((exists n, In (mkNearby (to_str_id unlocated) n) [mkNearby (to_str_id unlocated) 0]) <->
     float_le_int dist 0 = true) /\
    (forall n, In (mkNearby (to_str_id unlocated) n) [mkNearby (to_str_id unlocated) 0] ->
       int dist = Return n).
Proof.
  exact (nearby_alerts_missing_coordinates series_math unlocated_db 0 0 0 "default"
           unlocated [mkNearby (to_str_id unlocated) 0] (Some unlocated_db)
           (or_introl eq_refl) eq_refl).
Defined.

(** **** More alerts than the scan reads *)

Lemma haversine_at_zero math :
  exact_at_zero math -> haversine math 0 0 0 0 = Return 0%float.
Proof.
  intros [Hrad [Hsin [Hcos [Hasin [Hsqrt Hpow]]]]]. unfold haversine, and_then.
  change (0 - 0)%float with 0%float. rewrite Hrad.
  change (0 / 2)%float with 0%float. rewrite Hsin, Hpow, Hcos.
  change (0 + 1 * 1 * 0)%float with 0%float. rewrite Hsqrt, Hasin.
  reflexivity.
Qed.

Lemma series_math_exact_at_zero : exact_at_zero series_math.
Proof. repeat split. Qed.

Lemma unlocated_kept math xs :
  exact_at_zero math ->
  Forall (fun a => Alert.lat (val a) = None /\ Alert.lng (val a) = None) xs ->
  loop_keeps math 0 0 0 xs (map (fun a => mkNearby (to_str_id a) 0) xs).
Proof.
  intros Hmath. induction 1 as [|a xs [Hlat Hlng] _ IH]; cbn [map]; [constructor|].
  apply keeps_within; [|exact IH].
  exists 0%float. unfold measured. rewrite Hlat, Hlng. cbn [get_or_0].
  split; [now apply haversine_at_zero|]. now repeat split.
Qed.

Lemma in_existsb_eqb (x : string) (l : list string) :
  In x l -> existsb (String.eqb x) l = true.
Proof.
  intros H. apply existsb_exists. exists x. split; [exact H | apply String.eqb_refl].
Qed.

Lemma crowd_oldest_not_scanned :
  ~ In (oid_of_nat 0) (map (@_id Alert.t) (scanned "default" crowded_db)).
Proof. intros Hin. apply in_existsb_eqb in Hin. vm_compute in Hin. discriminate. Qed.

Lemma crowd_scanned_unlocated :
  Forall (fun a => Alert.lat (val a) = None /\ Alert.lng (val a) = None)
    (scanned "default" crowded_db).
Proof.
  apply Forall_forall. intros a Ha. apply scanned_in in Ha as [Ha _].
  unfold crowded_db in Ha. cbn [set_alert alert] in Ha.
  apply in_map_iff in Ha as [i [<- _]]. split; reflexivity.
Qed.

(** C10 fails as stated: 201 alerts without coordinates are stored, and a
    request at latitude 0, longitude 0 with [radius_m] 0 returns 200 of
    them and not the oldest one, on every platform whose math library is
    exact at zero, although the distance [haversine] computes from the
    query point to (0, 0) is 0.0, which is within the radius. *)
Lemma nearby_alerts_missing_coordinates_counterexample :
  In (crowd_alert 0) (alert crowded_db) /\
  Alert.tenant_id (val (crowd_alert 0)) = "default" /\
  Alert.lat (val (crowd_alert 0)) = None /\
  Alert.lng (val (crowd_alert 0)) = None /\
  (forall math, exact_at_zero math ->
     haversine math 0 0 0 0 = Return 0%float /\
     float_le_int 0 0 = true /\
     exists items,
       nearby_alerts math 0 0 0 "default" (Some crowded_db) =
         (Return items, Some crowded_db) /\
       List.length items = 200%nat /\
       forall x, In x items -> item x <> to_str_id (crowd_alert 0)).
Proof.
  split; [left; reflexivity|]. do 3 (split; [reflexivity|]).
  intros math Hmath. split; [now apply haversine_at_zero|]. split; [reflexivity|].
  exists (map (fun a => mkNearby (to_str_id a) 0) (scanned "default" crowded_db)).
  split; [|split].
  - rewrite nearby_alerts_runs.
    apply (nearby_loop_keeps math 0 0 0 _ _
             (unlocated_kept math _ Hmath crowd_scanned_unlocated) [] (Some crowded_db)).
  - rewrite length_map. vm_compute. reflexivity.
  - intros x Hx Heq. apply in_map_iff in Hx as [b [<- Hb]]. cbn [item] in Heq.
    apply to_str_id_inj in Heq. subst b.
    apply crowd_oldest_not_scanned. now apply (in_map (@_id Alert.t)) in Hb.
Qed.

(** * Further properties of the handlers *)

(** ** Alerts: creating and finding *)

(** What [haversine] returns is the radius of the Earth in metres times
    the angle, twice the arc sine the library returned. *)
Lemma haversine_returns math lat1 lon1 lat2 lon2 dist :
  haversine math lat1 lon1 lat2 lon2 = Return dist ->
  exists a root half,
    sqrt math a = Return root /\
    asin math root = Return half /\
    dist = (6371000 * (2 * half))%float.
Proof.
  unfold haversine. cbv zeta.
  repeat
    match goal with
    | |- and_then ?o _ = _ -> _ =>
        destruct o eqn:?; cbn [and_then]; cbv zeta; [|discriminate]
    end.
  intros [= <-]. eexists _, _, _. repeat split; eassumption.
Qed.

(** X2: every item [nearby_alerts] returns is a stored alert of the tenant
    for which [haversine] computed a double within [radius_m], the radius
    of the Earth (6,371,000 m) times twice an arc sine; its [distance_m] is
    that double truncated, and so at most [radius_m]. *)
Theorem nearby_alerts_distance_m_bounds
    (math : Math) (d : Database) (lat lng : float) (radius_m : Z) (t : string)
    (items : list NearbyItem) (st : option Database) :
  nearby_alerts math lat lng radius_m t (Some d) = (Return items, st) ->
  forall it, In it items ->
    (distance_m it <= radius_m)%Z /\
    exists a dist,
      In a (alert d) /\ Alert.tenant_id (val a) = t /\ item it = to_str_id a /\
      measured math lat lng a dist /\
      (exists x root half,
         sqrt math x = Return root /\ asin math root = Return half /\
         dist = (6371000 * (2 * half))%float) /\
      float_le_int dist radius_m = true /\
      int dist = Return (distance_m it).
Proof.
  intros Hrun it Hit. apply nearby_alerts_returns in Hrun as [_ Hk].
  destruct (loop_keeps_from _ _ _ _ _ _ Hk it Hit) as [a [Ha [dist [Hd [Hle [Hn Hid]]]]]].
  split; [exact (int_le _ _ _ Hle Hn)|].
  apply scanned_in in Ha as [Hin Ht]. exists a, dist.
  repeat (split; [assumption|]).
  split; [exact (haversine_returns _ _ _ _ _ _ Hd)|]. now split.
Qed.

Lemma nearby_alerts_distance_m_bounds_witness :
  (distance_m (mkNearby (to_str_id unlocated) 0) <= 0)%Z /\
  exists a dist,
    In a (alert unlocated_db) /\ Alert.tenant_id (val a) = "default" /\
    item (mkNearby (to_str_id unlocated) 0) = to_str_id a /\
    measured series_math 0 0 a dist /\
    (exists x root half,
       sqrt series_math x = Return root /\ asin series_math root = Return half /\
       dist = (6371000 * (2 * half))%float) /\
    float_le_int dist 0 = true /\
    int dist = Return (distance_m (mkNearby (to_str_id unlocated) 0)).
Proof.
  exact (nearby_alerts_distance_m_bounds series_math unlocated_db 0 0 0 "default"
           [mkNearby (to_str_id unlocated) 0] (Some unlocated_db) eq_refl
           (mkNearby (to_str_id unlocated) 0) (or_introl eq_refl)).
Defined.

Lemma sort_insert_descending {D} (key : D -> Z) x l :
  StronglySorted (fun a b => key_le key b a) l ->
  StronglySorted (fun a b => key_le key b a) (Col.sort_insert key (-1) x l).
Proof.
  induction 1 as [|y l Hs IH Hall]; simpl.
  - constructor; constructor.
  - unfold Col.before; simpl. destruct (Z.leb_spec (key y) (key x)) as [Hle|Hgt].
    + constructor; [constructor; assumption|].
      constructor; [exact Hle|].
      apply Forall_forall. intros z Hz.
      rewrite Forall_forall in Hall. specialize (Hall z Hz).
      unfold key_le in *. lia.
    + constructor; [exact IH|].
      apply Forall_forall. intros z Hz. apply sort_insert_in in Hz as [->|Hz].
      * unfold key_le. lia.
      * rewrite Forall_forall in Hall. now apply Hall.
Qed.

Lemma sort_descending {D} (key : D -> Z) l :
  StronglySorted (fun a b => key_le key b a) (Col.sort key (-1) l).
Proof.
  induction l as [|x l IH]; simpl; [constructor|].
  now apply sort_insert_descending.
Qed.

Lemma loop_keeps_newest_first math lat lng radius_m xs kept :
  loop_keeps math lat lng radius_m xs kept ->
  StronglySorted (fun a b => key_le (fun a => Alert.created_at (val a)) b a) xs ->
  StronglySorted newest_first kept.
Proof.
  induction 1 as [|a xs it kept [dist [_ [_ [_ Hit]]]] Hk IH|a xs kept dist Hd Hle Hk IH];
    intros Hs; [constructor| |]; inversion Hs as [|? ? Hs' Hall]; subst.
  - constructor; [exact (IH Hs')|].
    apply Forall_forall. intros x Hx.
    destruct (loop_keeps_from _ _ _ _ _ _ Hk x Hx) as [b [Hb [_ [_ [_ [_ Hxb]]]]]].
    rewrite Forall_forall in Hall. specialize (Hall b Hb).
    unfold newest_first, key_le in *. rewrite Hit, Hxb. exact Hall.
  - exact (IH Hs').
Qed.

(** X3: [nearby_alerts] leaves the store as it was whether it returns or
    raises; it returns exactly when the loop gets past each alert it scans;
    and what it returns is at most 200 alerts, the more recently created
    first. *)
Theorem nearby_alerts_newest_first_capped
    (math : Math) (d : Database) (lat lng : float) (radius_m : Z) (t : string) :
  snd (nearby_alerts math lat lng radius_m t (Some d)) = Some d /\
  ((exists items, fst (nearby_alerts math lat lng radius_m t (Some d)) = Return items) <->
   Forall (passes math lat lng radius_m) (scanned t d)) /\
  (forall items st,
     nearby_alerts math lat lng radius_m t (Some d) = (Return items, st) ->
     StronglySorted newest_first items /\ (List.length items <= 200)%nat).
Proof.
  split; [now rewrite nearby_alerts_scanned|]. split; [split|].
  - intros [items H].
    destruct (nearby_alerts math lat lng radius_m t (Some d)) as [out st] eqn:E.
    cbn [fst] in H. subst out. apply nearby_alerts_returns in E as [_ Hk].
    exact (loop_keeps_passes _ _ _ _ _ _ Hk).
  - intros Hall. apply passes_loop_keeps in Hall as [kept Hk]. exists kept.
    rewrite nearby_alerts_runs, (nearby_loop_keeps _ _ _ _ _ _ Hk [] (Some d)).
    reflexivity.
  - intros items st Hrun. apply nearby_alerts_returns in Hrun as [_ Hk]. split.
    + apply (loop_keeps_newest_first _ _ _ _ _ _ Hk). unfold scanned.
      apply limit_sorted, sort_descending.
    + eapply Nat.le_trans; [exact (loop_keeps_length _ _ _ _ _ _ Hk)|].
      apply scanned_length.
Qed.





Lemma create_alert_runs d now new_id payload t pid p :
  bson.ObjectId (AlertCreate.persona_id payload) = Some pid ->
  Col.find_one (persona_filter pid t) (persona d) = Some p ->
  let doc :=
    Alert.mk t (AlertCreate.persona_id payload) (AlertCreate.type payload)
      (Str.strip (AlertCreate.text payload)) (AlertCreate.radius_m payload)
      (Some (AlertCreate.lat payload)) (Some (AlertCreate.lng payload))
      "Active" 0 0 0 now now in
  fits_int64 (AlertCreate.radius_m payload) = true ->
  create_alert now new_id payload t (Some d) =
    (Return (mkCreated (bson.str new_id) (mkDoc new_id doc)),
     Some (set_alert (alert d ++ [mkDoc new_id doc]) d)).
Proof.
  intros Hpid Hp doc Hfit. unfold create_alert. run_handler. cbn [Alert.radius_m].
  now rewrite Hpid, Hp, Hfit.
Qed.

(** X4: when [create_alert] raises, the store is as before, and the
    exception is the driver's [InvalidId] for a [persona_id] that is not an
    identifier (not an HTTP error of the handler's own), 404 "Persona not
    found" for an identifier no persona of the tenant has, or the driver's
    [OverflowError] for a [radius_m] beyond eight bytes; there is no other
    case. *)
Theorem create_alert_raises_store_unchanged
    (d : Database) (now : datetime) (new_id : bson.oid)
    (payload : AlertCreate.t) (t : string) (e : Exn) (st : option Database) :
  create_alert now new_id payload t (Some d) = (Raise e, st) ->
  st = Some d /\
  match bson.ObjectId (AlertCreate.persona_id payload) with
  | None => e = InvalidId (AlertCreate.persona_id payload)
  | Some pid =>
      match Col.find_one (persona_filter pid t) (persona d) with
      | None => e = HTTPException 404 "Persona not found"
      | Some _ =>
          fits_int64 (AlertCreate.radius_m payload) = false /\ e = OverflowError
      end
  end.
Proof.
  unfold create_alert. run_handler. cbn [Alert.radius_m].
  destruct (bson.ObjectId (AlertCreate.persona_id payload)) as [pid|] eqn:Epid.
  - destruct (Col.find_one (persona_filter pid t) (persona d)) as [p|] eqn:Ep.
    + destruct (fits_int64 (AlertCreate.radius_m payload)) eqn:Efit.
      * discriminate.
      * intros [= <- <-]. repeat split.
    + intros [= <- <-]. split; reflexivity.
  - intros [= <- <-]. split; reflexivity.
Qed.

Lemma create_alert_raises_store_unchanged_witness :
  Some chat_db = Some chat_db /\
  match bson.ObjectId alice_id with
  | None => OverflowError = InvalidId alice_id
  | Some pid =>
      match Col.find_one (persona_filter pid "default") (persona chat_db) with
      | None => OverflowError = HTTPException 404 "Persona not found"
      | Some _ => fits_int64 (2 ^ 63) = false /\ OverflowError = OverflowError
      end
  end.
Proof.
  apply (create_alert_raises_store_unchanged chat_db 9 help_id
           (AlertCreate.mk alice_id "Help" "lost" (2 ^ 63) 35 139) "default").
  reflexivity.
Defined.

(** ** Messages: sending and listing *)

Lemma lstrip_no_leading_space s : starts_with_space (Str.lstrip s) = false.
Proof.
  induction s as [|c s IH]; simpl; [reflexivity|].
  destruct (Str.is_space c) eqn:E; [exact IH | simpl; exact E].
Qed.

Lemma rstrip_unfold c s :
  Str.rstrip (String c s) =
  match Str.rstrip s with
  | EmptyString => if Str.is_space c then EmptyString else String c EmptyString
  | t => String c t
  end.
Proof. reflexivity. Qed.

Lemma rstrip_no_trailing_space s : ends_with_space (Str.rstrip s) = false.
Proof.
  induction s as [|c s IH]; [reflexivity|]. rewrite rstrip_unfold.
  destruct (Str.rstrip s) as [|c2 t2].
  - destruct (Str.is_space c) eqn:E; simpl; [reflexivity | exact E].
  - exact IH.
Qed.

Lemma rstrip_keeps_start s :
  starts_with_space s = false -> starts_with_space (Str.rstrip s) = false.
Proof.
  destruct s as [|c s]; [reflexivity|]. rewrite rstrip_unfold. simpl. intros E.
  destruct (Str.rstrip s); [rewrite E|]; simpl; exact E.
Qed.

Lemma lstrip_fixed s : starts_with_space s = false -> Str.lstrip s = s.
Proof. destruct s as [|c s]; simpl; [reflexivity|]. now intros ->. Qed.

Lemma rstrip_fixed s : ends_with_space s = false -> Str.rstrip s = s.
Proof.
  induction s as [|c s IH]; [reflexivity|]. rewrite rstrip_unfold.
  destruct s as [|c2 s2].
  - simpl. now intros ->.
  - intros E. rewrite (IH E). reflexivity.
Qed.

Lemma lstrip_all_space s : all_space s = true -> Str.lstrip s = EmptyString.
Proof.
  induction s as [|c s IH]; simpl; [reflexivity|].
  destruct (Str.is_space c); simpl; [exact IH | discriminate].
Qed.

(** What [strip] returns has no whitespace at either end, is left alone by a
    second [strip], and is empty for a string of whitespace. *)
Lemma strip_trimmed s :
  starts_with_space (Str.strip s) = false /\
  ends_with_space (Str.strip s) = false /\
  Str.strip (Str.strip s) = Str.strip s /\
  (all_space s = true -> Str.strip s = EmptyString).
Proof.
  assert (H1 : starts_with_space (Str.strip s) = false)
    by (apply rstrip_keeps_start, lstrip_no_leading_space).
  assert (H2 : ends_with_space (Str.strip s) = false)
    by apply rstrip_no_trailing_space.
  repeat split; [exact H1 | exact H2 | |].
  - unfold Str.strip at 1. now rewrite (lstrip_fixed _ H1), (rstrip_fixed _ H2).
  - intros H. unfold Str.strip. now rewrite (lstrip_all_space _ H).
Qed.

Lemma send_message_runs d now new_id payload t rid pid r p :
  bson.ObjectId (MessageCreate.room_id payload) = Some rid ->
  Col.find_one (room_filter rid t) (room d) = Some r ->
  bson.ObjectId (MessageCreate.persona_id payload) = Some pid ->
  Col.find_one (persona_filter pid t) (persona d) = Some p ->
  let doc :=
    Message.mk t (MessageCreate.room_id payload) (MessageCreate.persona_id payload)
      (Str.strip (MessageCreate.content payload)) [] now now false in
  send_message now new_id payload t (Some d) =
    (Return (mkCreated (bson.str new_id) (mkDoc new_id doc)),
     Some (set_message (message d ++ [mkDoc new_id doc]) d)).
Proof.
  intros Hrid Hr Hpid Hp doc. unfold send_message. run_handler.
  now rewrite Hrid, Hr, Hpid, Hp.
Qed.

(** X6: for a room and a persona of the tenant, [send_message] appends one
    message and changes nothing else; for a content within the ASCII range
    the stored content is the payload's without the whitespace around it,
    so it neither begins nor ends with whitespace, and a payload of
    whitespace alone is stored as the empty string rather than refused. *)
Theorem send_message_stores_trimmed_content
    (d : Database) (now : datetime) (new_id : bson.oid)
    (payload : MessageCreate.t) (t : string)
    (rid pid : bson.oid) (r : Doc Room.t) (p : Doc Persona.t) :
  bson.ObjectId (MessageCreate.room_id payload) = Some rid ->
  Col.find_one (room_filter rid t) (room d) = Some r ->
  bson.ObjectId (MessageCreate.persona_id payload) = Some pid ->
  Col.find_one (persona_filter pid t) (persona d) = Some p ->
  is_ascii (MessageCreate.content payload) = true ->
  exists c d1,
    send_message now new_id payload t (Some d) = (Return c, Some d1) /\
    message d1 = message d ++ [created_doc c] /\
    persona d1 = persona d /\ room d1 = room d /\
    roommember d1 = roommember d /\ alert d1 = alert d /\
    _id (created_doc c) = new_id /\
    Message.tenant_id (val (created_doc c)) = t /\
    Message.content (val (created_doc c)) = Str.strip (MessageCreate.content payload) /\
    starts_with_space (Message.content (val (created_doc c))) = false /\
    ends_with_space (Message.content (val (created_doc c))) = false /\
    (all_space (MessageCreate.content payload) = true ->
     Message.content (val (created_doc c)) = EmptyString).
Proof.
  intros Hrid Hr Hpid Hp _.
  eexists _, _. split; [exact (send_message_runs d now new_id payload t rid pid r p Hrid Hr Hpid Hp)|].
  cbn [created_doc val _id Message.tenant_id Message.content
       set_message persona room roommember message alert].
  destruct (strip_trimmed (MessageCreate.content payload)) as [H1 [H2 [_ H4]]].
  repeat split; assumption.
Qed.

Lemma send_message_stores_trimmed_content_witness :
  exists c d1,
    send_message 9 help_id (MessageCreate.mk ikebukuro_id alice_id "   ") "default"
      (Some chat_db) = (Return c, Some d1) /\
    message d1 = message chat_db ++ [created_doc c] /\
    persona d1 = persona chat_db /\ room d1 = room chat_db /\
    roommember d1 = roommember chat_db /\ alert d1 = alert chat_db /\
    _id (created_doc c) = help_id /\
    Message.tenant_id (val (created_doc c)) = "default" /\
    Message.content (val (created_doc c)) = Str.strip "   " /\
    starts_with_space (Message.content (val (created_doc c))) = false /\
    ends_with_space (Message.content (val (created_doc c))) = false /\
    (all_space "   " = true -> Message.content (val (created_doc c)) = EmptyString).
Proof.
  exact (send_message_stores_trimmed_content chat_db 9 help_id
           (MessageCreate.mk ikebukuro_id alice_id "   ") "default" ikebukuro_id alice_id
           (mkDoc ikebukuro_id (Room.mk "default" "Ikebukuro" "city" None None 0 2 2))
           (mkDoc alice_id (Persona.mk "default" "alice" None None "A" 1 0 0 1 1 false))
           eq_refl eq_refl eq_refl eq_refl eq_refl).
Defined.

(** X7: when [send_message] raises, the store is as before.  The room is
    checked before the persona's identifier is read: a malformed [room_id]
    raises the driver's [InvalidId], an unknown room 404 "Room not found"
    whatever the [persona_id], and only then a malformed [persona_id]
    raises [InvalidId] and an unknown persona 404 "Persona not found". *)
Theorem send_message_raises_store_unchanged
    (d : Database) (now : datetime) (new_id : bson.oid)
    (payload : MessageCreate.t) (t : string) (e : Exn) (st : option Database) :
  send_message now new_id payload t (Some d) = (Raise e, st) ->
  st = Some d /\
  match bson.ObjectId (MessageCreate.room_id payload) with
  | None => e = InvalidId (MessageCreate.room_id payload)
  | Some rid =>
      match Col.find_one (room_filter rid t) (room d) with
      | None => e = HTTPException 404 "Room not found"
      | Some _ =>
          match bson.ObjectId (MessageCreate.persona_id payload) with
          | None => e = InvalidId (MessageCreate.persona_id payload)
          | Some pid =>
              Col.find_one (persona_filter pid t) (persona d) = None /\
              e = HTTPException 404 "Persona not found"
          end
      end
  end.
Proof.
  unfold send_message. run_handler.
  destruct (bson.ObjectId (MessageCreate.room_id payload)) as [rid|];
    [|intros [= <- <-]; now split].
  destruct (Col.find_one (room_filter rid t) (room d)) as [r|];
    [|intros [= <- <-]; now split].
  destruct (bson.ObjectId (MessageCreate.persona_id payload)) as [pid|];
    [|intros [= <- <-]; now split].
  destruct (Col.find_one (persona_filter pid t) (persona d)) as [p|] eqn:Ep;
    [discriminate | intros [= <- <-]; now split].
Qed.

Lemma send_message_raises_store_unchanged_witness :
  Some chat_db = Some chat_db /\
  match bson.ObjectId alice_id with
  | None => HTTPException 404 "Room not found" = InvalidId alice_id
  | Some rid =>
      match Col.find_one (room_filter rid "default") (room chat_db) with
      | None => HTTPException 404 "Room not found" = HTTPException 404 "Room not found"
      | Some _ =>
          match bson.ObjectId "nobody" with
          | None => HTTPException 404 "Room not found" = InvalidId "nobody"
          | Some pid =>
              Col.find_one (persona_filter pid "default") (persona chat_db) = None /\
              HTTPException 404 "Room not found" = HTTPException 404 "Persona not found"
          end
      end
  end.
Proof.
  apply (send_message_raises_store_unchanged chat_db 9 help_id
           (MessageCreate.mk alice_id "nobody" "hi") "default").
  reflexivity.
Defined.

Lemma sort_insert_permutation {D} (key : D -> Z) direction x l :
  Permutation (Col.sort_insert key direction x l) (x :: l).
Proof.
  induction l as [|y l IH]; simpl; [reflexivity|].
  destruct (Col.before key direction x y); [reflexivity|].
  rewrite IH. apply perm_swap.
Qed.

Lemma sort_permutation {D} (key : D -> Z) direction l :
  Permutation (Col.sort key direction l) l.
Proof.
  induction l as [|x l IH]; simpl; [reflexivity|].
  rewrite sort_insert_permutation. now constructor.
Qed.

Lemma sorted_app_le {D} (R : D -> D -> Prop) l1 l2 :
  StronglySorted R (l1 ++ l2) ->
  forall x y, In x l1 -> In y l2 -> R x y.
Proof.
  induction l1 as [|a l1 IH]; simpl; intros Hs x y Hx Hy; [contradiction|].
  inversion Hs as [|? ? Hs' Hall]; subst. destruct Hx as [<-|Hx].
  - rewrite Forall_forall in Hall. apply Hall, in_or_app. now right.
  - now apply IH.
Qed.

Lemma firstn_full_when_cut {D} n (l : list D) :
  skipn n l <> [] -> List.length (firstn n l) = n.
Proof.
  intros H. apply firstn_length_le.
  destruct (Nat.le_gt_cases n (List.length l)) as [Hle|Hgt]; [exact Hle|].
  exfalso. apply H. apply skipn_all2. lia.
Qed.

Lemma limit_covers {D} limit (l : list D) :
  limit = 0%Z \/ (Z.of_nat (List.length l) <= limit)%Z -> Col.limit limit l = l.
Proof.
  unfold Col.limit. intros [->|Hle]; [reflexivity|].
  destruct (limit =? 0)%Z; [reflexivity|]. apply firstn_all2. lia.
Qed.

(** X8: a message just sent is in what [list_messages] returns for the same
    [room_id], when [limit] is 0 or exceeds the number of messages the room
    had before. *)
Theorem send_message_then_list_messages
    (d : Database) (now : datetime) (new_id : bson.oid)
    (payload : MessageCreate.t) (t : string) (limit : Z)
    (rid pid : bson.oid) (r : Doc Room.t) (p : Doc Persona.t) :
  bson.ObjectId (MessageCreate.room_id payload) = Some rid ->
  Col.find_one (room_filter rid t) (room d) = Some r ->
  bson.ObjectId (MessageCreate.persona_id payload) = Some pid ->
  Col.find_one (persona_filter pid t) (persona d) = Some p ->
  limit = 0%Z \/
  (Z.of_nat (List.length
     (Col.find (message_filter t (MessageCreate.room_id payload)) (message d))) < limit)%Z ->
  exists c d1 items,
    send_message now new_id payload t (Some d) = (Return c, Some d1) /\
    list_messages (MessageCreate.room_id payload) limit t (Some d1) =
      (Return items, Some d1) /\
    In (to_str_id (created_doc c)) items.
Proof.
  intros Hrid Hr Hpid Hp Hlimit.
  eexists _, _, _.
  split; [exact (send_message_runs d now new_id payload t rid pid r p Hrid Hr Hpid Hp)|].
  split; [exact (list_messages_runs _ _ limit t rid Hrid)|].
  cbn [created_doc set_message message]. apply in_map.
  set (m := mkDoc new_id _).
  assert (Hfind : Col.find (message_filter t (MessageCreate.room_id payload))
                    (message d ++ [m]) =
                  Col.find (message_filter t (MessageCreate.room_id payload)) (message d)
                  ++ [m]).
  { unfold Col.find. rewrite filter_app. f_equal. cbn [filter].
    unfold message_filter, m. cbn [val Message.tenant_id Message.room_id].
    now rewrite !String.eqb_refl. }
  rewrite Hfind, limit_covers.
  - apply sort_in, in_or_app. right. now left.
  - destruct Hlimit as [->|Hlt]; [now left | right].
    rewrite sort_length, length_app. simpl. lia.
Qed.

Lemma send_message_then_list_messages_witness :
  exists c d1 items,
    send_message 9 help_id (MessageCreate.mk ikebukuro_id alice_id "again") "default"
      (Some chat_db) = (Return c, Some d1) /\
    list_messages ikebukuro_id 50 "default" (Some d1) = (Return items, Some d1) /\
    In (to_str_id (created_doc c)) items.
Proof.
  apply (send_message_then_list_messages chat_db 9 help_id
           (MessageCreate.mk ikebukuro_id alice_id "again") "default" 50
           ikebukuro_id alice_id
           (mkDoc ikebukuro_id (Room.mk "default" "Ikebukuro" "city" None None 0 2 2))
           (mkDoc alice_id (Persona.mk "default" "alice" None None "A" 1 0 0 1 1 false)));
    [reflexivity | reflexivity | reflexivity | reflexivity | right; simpl; lia].
Defined.

(** X9: with a positive [limit], [list_messages] returns the earliest
    messages of the room: those it keeps and those it leaves out are
    together the stored messages of the room, every message left out was
    created no earlier than every message kept, and when any is left out
    exactly [limit] are kept. *)
Theorem list_messages_keeps_earliest
    (d : Database) (room_id : string) (limit : Z) (t : string) :
  bson.ObjectId room_id <> None ->
  (0 < limit)%Z ->
  exists kept left_out,
    list_messages room_id limit t (Some d) = (Return (map to_str_id kept), Some d) /\
    Permutation (kept ++ left_out) (Col.find (message_filter t room_id) (message d)) /\
    (forall x y, In x kept -> In y left_out ->
       (Message.created_at (val x) <= Message.created_at (val y))%Z) /\
    (left_out <> [] -> Z.of_nat (List.length kept) = limit).
Proof.
  intros Hok Hpos. destruct (bson.ObjectId room_id) as [rid|] eqn:E; [|congruence].
  set (all := Col.sort (fun m => Message.created_at (val m)) 1
                (Col.find (message_filter t room_id) (message d))).
  exists (firstn (Z.abs_nat limit) all), (skipn (Z.abs_nat limit) all).
  split.
  { rewrite (list_messages_runs d room_id limit t rid E). fold all.
    unfold Col.limit. destruct (Z.eqb_spec limit 0); [lia | reflexivity]. }
  split; [rewrite firstn_skipn; apply sort_permutation|].
  split.
  - apply (sorted_app_le (key_le (fun m => Message.created_at (val m)))).
    rewrite firstn_skipn. apply sort_ascending.
  - intros Hcut. rewrite (firstn_full_when_cut _ _ Hcut). lia.
Qed.

Lemma list_messages_keeps_earliest_witness :
  exists kept left_out,
    list_messages ikebukuro_id 1 "default" (Some chat_db) =
      (Return (map to_str_id kept), Some chat_db) /\
    Permutation (kept ++ left_out)
      (Col.find (message_filter "default" ikebukuro_id) (message chat_db)) /\
    (forall x y, In x kept -> In y left_out ->
       (Message.created_at (val x) <= Message.created_at (val y))%Z) /\
    (left_out <> [] -> Z.of_nat (List.length kept) = 1%Z).
Proof.
  apply (list_messages_keeps_earliest chat_db ikebukuro_id 1 "default");
    [discriminate | lia].
Defined.

(** ** Rooms: joining, leaving, creating *)

Lemma update_one_ids {A} (flt : Doc A -> bool) (g : Doc A -> Doc A) (c : list (Doc A)) :
  (forall y, _id (g y) = _id y) ->
  map (@_id A) (Col.update_one flt g c) = map (@_id A) c.
Proof.
  intros Hg. induction c as [|x c IH]; simpl; [reflexivity|].
  destruct (flt x); simpl; [now rewrite Hg | now rewrite IH].
Qed.

Lemma update_one_no_match {D} (flt : D -> bool) (g : D -> D) (c : list D) :
  Col.find_one flt c = None -> Col.update_one flt g c = c.
Proof.
  unfold Col.find_one. induction c as [|x c IH]; simpl; [reflexivity|].
  destruct (flt x); [discriminate|]. intros H. now rewrite IH.
Qed.

Lemma update_one_app_new {D} (flt : D -> bool) (g : D -> D) (c : list D) (x : D) :
  Col.find_one flt c = None -> flt x = true ->
  Col.update_one flt g (c ++ [x]) = c ++ [g x].
Proof.
  unfold Col.find_one. induction c as [|y c IH]; simpl; intros Hn Hx.
  - now rewrite Hx.
  - destruct (flt y); [discriminate|]. now rewrite IH.
Qed.

Lemma no_room_with_fresh_id new_id (rooms : list (Doc Room.t)) :
  ~ In new_id (map (@_id Room.t) rooms) ->
  Col.find_one (room_id_filter new_id) rooms = None /\
  forall t, Col.find_one (room_filter new_id t) rooms = None.
Proof.
  intros Hfresh. split; [|intros t]; apply find_one_none; intros x Hx;
    destruct (bson.eqb (_id x) new_id) eqn:E;
    try (apply oid_eqb_eq in E; exfalso; apply Hfresh; rewrite <- E; now apply in_map).
  - unfold room_id_filter. exact E.
  - unfold room_filter. now rewrite E.
Qed.

(** X10: when [join_room] raises, the store is as before: 400 "Invalid ids"
    when either identifier is malformed, else 404 "Room not found" when the
    tenant has no such room, else 404 "Persona not found". *)
Theorem join_room_raises_store_unchanged
    (d : Database) (now : datetime) (new_id : bson.oid)
    (room_id : string) (payload : JoinLeave.t) (t : string)
    (e : Exn) (st : option Database) :
  join_room now new_id room_id payload t (Some d) = (Raise e, st) ->
  st = Some d /\
  match bson.ObjectId room_id, bson.ObjectId (JoinLeave.persona_id payload) with
  | Some rid, Some pid =>
      match Col.find_one (room_filter rid t) (room d) with
      | None => e = HTTPException 404 "Room not found"
      | Some _ =>
          Col.find_one (persona_filter pid t) (persona d) = None /\
          e = HTTPException 404 "Persona not found"
      end
  | _, _ => e = HTTPException 400 "Invalid ids"
  end.
Proof.
  unfold join_room. run_handler.
  destruct (bson.ObjectId room_id) as [rid|];
    [|intros [= <- <-]; now split].
  destruct (bson.ObjectId (JoinLeave.persona_id payload)) as [pid|];
    [|intros [= <- <-]; now split].
  destruct (Col.find_one (room_filter rid t) (room d)) as [r|];
    [|intros [= <- <-]; now split].
  destruct (Col.find_one (persona_filter pid t) (persona d)) as [p|] eqn:Ep;
    [discriminate | intros [= <- <-]; now split].
Qed.

Lemma join_room_raises_store_unchanged_witness :
  Some chat_db = Some chat_db /\
  match bson.ObjectId ikebukuro_id, bson.ObjectId "alice" with
  | Some rid, Some pid =>
      match Col.find_one (room_filter rid "default") (room chat_db) with
      | None => HTTPException 400 "Invalid ids" = HTTPException 404 "Room not found"
      | Some _ =>
          Col.find_one (persona_filter pid "default") (persona chat_db) = None /\
          HTTPException 400 "Invalid ids" = HTTPException 404 "Persona not found"
      end
  | _, _ => HTTPException 400 "Invalid ids" = HTTPException 400 "Invalid ids"
  end.
Proof.
  apply (join_room_raises_store_unchanged chat_db 9 help_id ikebukuro_id
           (JoinLeave.mk "alice") "default").
  reflexivity.
Defined.

(** X11: joining twice is counted twice.  For a persona that is not yet a
    member, the first [join_room] inserts one membership with [joined_at]
    the time of that call, the second leaves the memberships as they are,
    and the room's [member_count] has grown by 2. *)
Theorem join_room_twice_counts_twice
    (d : Database) (now1 now2 : datetime) (id1 id2 : bson.oid)
    (room_id : string) (payload : JoinLeave.t) (t : string)
    (rid pid : bson.oid) (r : Doc Room.t) (p : Doc Persona.t) :
  unique_ids (room d) ->
  bson.ObjectId room_id = Some rid ->
  bson.ObjectId (JoinLeave.persona_id payload) = Some pid ->
  Col.find_one (room_filter rid t) (room d) = Some r ->
  Col.find_one (persona_filter pid t) (persona d) = Some p ->
  Col.find_one (member_filter t room_id (JoinLeave.persona_id payload))
    (roommember d) = None ->
  exists d1 d2 r2,
    join_room now1 id1 room_id payload t (Some d) = (Return (mkOk true), Some d1) /\
    join_room now2 id2 room_id payload t (Some d1) = (Return (mkOk true), Some d2) /\
    roommember d1 =
      roommember d ++
      [mkDoc id1 (RoomMember.mk t room_id (JoinLeave.persona_id payload) now1)] /\
    roommember d2 = roommember d1 /\
    Col.find_one (room_filter rid t) (room d2) = Some r2 /\
    Room.member_count (val r2) = (Room.member_count (val r) + 2)%Z.
Proof.
  intros Hu Hrid Hpid Hr Hp Hm.
  set (m := mkDoc id1 (RoomMember.mk t room_id (JoinLeave.persona_id payload) now1)).
  set (rooms1 := Col.update_one (room_id_filter rid) (inc_member_count 1 now1) (room d)).
  assert (Hr1 : Col.find_one (room_filter rid t) rooms1 = Some (inc_member_count 1 now1 r))
    by (apply find_room_after_update; auto).
  assert (Hu1 : unique_ids rooms1)
    by (unfold unique_ids, rooms1; now rewrite update_one_ids).
  assert (Hr2 : Col.find_one (room_filter rid t)
                  (Col.update_one (room_id_filter rid) (inc_member_count 1 now2) rooms1)
                = Some (inc_member_count 1 now2 (inc_member_count 1 now1 r)))
    by (apply find_room_after_update; auto).
  assert (Hm1 : Col.upsert_one (member_filter t room_id (JoinLeave.persona_id payload))
                  (fun x => x) m (roommember d) = roommember d ++ [m]).
  { unfold Col.upsert_one. unfold Col.find_one in Hm. now rewrite Hm. }
  assert (Hfound : Col.find_one (member_filter t room_id (JoinLeave.persona_id payload))
                     (roommember d ++ [m]) = Some m).
  { apply find_one_app_new; [exact Hm|]. unfold member_filter, m.
    cbn [val RoomMember.tenant_id RoomMember.room_id RoomMember.persona_id].
    now rewrite !String.eqb_refl. }
  eexists _, _, _.
  split; [exact (join_room_runs d now1 id1 room_id payload t rid pid r p Hrid Hpid Hr Hp)|].
  fold m rooms1. rewrite Hm1.
  split.
  { exact (join_room_runs
             (mkDb (persona d) rooms1 (roommember d ++ [m]) (message d) (alert d))
             now2 id2 room_id payload t rid pid (inc_member_count 1 now1 r) p
             Hrid Hpid Hr1 Hp). }
  cbn [room roommember].
  split; [reflexivity|]. split.
  { unfold Col.upsert_one. unfold Col.find_one in Hfound. rewrite Hfound.
    apply update_one_same. }
  split; [exact Hr2|]. simpl. lia.
Qed.

Lemma join_room_twice_counts_twice_witness :
  exists d1 d2 r2,
    join_room 5 member_id ikebukuro_id (JoinLeave.mk alice_id) "default" (Some chat_db) =
      (Return (mkOk true), Some d1) /\
    join_room 7 help_id ikebukuro_id (JoinLeave.mk alice_id) "default" (Some d1) =
      (Return (mkOk true), Some d2) /\
    roommember d1 =
      roommember chat_db ++
      [mkDoc member_id (RoomMember.mk "default" ikebukuro_id alice_id 5)] /\
    roommember d2 = roommember d1 /\
    Col.find_one (room_filter ikebukuro_id "default") (room d2) = Some r2 /\
    Room.member_count (val r2) = 2%Z.
Proof.
  refine (join_room_twice_counts_twice chat_db 5 7 member_id help_id ikebukuro_id
            (JoinLeave.mk alice_id) "default" ikebukuro_id alice_id
            (mkDoc ikebukuro_id (Room.mk "default" "Ikebukuro" "city" None None 0 2 2))
            (mkDoc alice_id (Persona.mk "default" "alice" None None "A" 1 0 0 1 1 false))
            _ eq_refl eq_refl eq_refl eq_refl eq_refl).
  unfold unique_ids. simpl. constructor; [simpl; tauto | constructor].
Defined.

(** X12: for a well-formed [room_id], [leave_room] always answers ok.  It
    lowers the [member_count] of the room with that identifier by 1 whether
    or not a membership was there to delete (so the count can fall below
    zero), and for an identifier no room has it changes no room. *)
Theorem leave_room_always_decrements
    (d : Database) (now : datetime) (room_id : string)
    (payload : JoinLeave.t) (t : string) (rid : bson.oid) :
  bson.ObjectId room_id = Some rid ->
  exists d1,
    leave_room now room_id payload t (Some d) = (Return (mkOk true), Some d1) /\
    (Col.find_one (member_filter t room_id (JoinLeave.persona_id payload))
       (roommember d) = None -> roommember d1 = roommember d) /\
    (forall r, Col.find_one (room_id_filter rid) (room d) = Some r ->
       exists r1, Col.find_one (room_id_filter rid) (room d1) = Some r1 /\
                  Room.member_count (val r1) = (Room.member_count (val r) - 1)%Z) /\
    (Col.find_one (room_id_filter rid) (room d) = None -> room d1 = room d).
Proof.
  intros Hrid. eexists.
  split; [exact (leave_room_runs d now room_id payload t rid Hrid)|].
  cbn [room roommember]. split; [|split].
  - intros Hm. now apply delete_one_no_match.
  - intros r Hr. exists (inc_member_count (-1) now r).
    split; [now apply find_one_updated|]. simpl. lia.
  - intros Hr. now apply update_one_no_match.
Qed.

Lemma leave_room_always_decrements_witness :
  exists d1,
    leave_room 8 ikebukuro_id (JoinLeave.mk alice_id) "default" (Some chat_db) =
      (Return (mkOk true), Some d1) /\
    roommember d1 = roommember chat_db /\
    exists r1, Col.find_one (room_id_filter ikebukuro_id) (room d1) = Some r1 /\
               Room.member_count (val r1) = (-1)%Z.
Proof.
  destruct (leave_room_always_decrements chat_db 8 ikebukuro_id (JoinLeave.mk alice_id)
              "default" ikebukuro_id eq_refl) as [d1 [Hrun [Hmem [Hdec _]]]].
  exists d1. split; [exact Hrun|]. split; [exact (Hmem eq_refl)|].
  exact (Hdec (mkDoc ikebukuro_id (Room.mk "default" "Ikebukuro" "city" None None 0 2 2))
              eq_refl).
Defined.

(** A join in a store that two tenants share. *)
Lemma join_room_keeps_other_tenants_witness :
  exists d1,
    snd (join_room 5 member_id ikebukuro_id (JoinLeave.mk alice_id) "default"
           (Some shared_db)) = Some d1 /\
    of_others Room.tenant_id "default" (room d1) =
      of_others Room.tenant_id "default" (room shared_db) /\
    of_others RoomMember.tenant_id "default" (roommember d1) =
      of_others RoomMember.tenant_id "default" (roommember shared_db) /\
    persona d1 = persona shared_db /\ message d1 = message shared_db /\
    alert d1 = alert shared_db.
Proof.
  apply (join_room_keeps_other_tenants shared_db 5 member_id ikebukuro_id
           (JoinLeave.mk alice_id) "default"
           (fst (join_room 5 member_id ikebukuro_id (JoinLeave.mk alice_id) "default"
                   (Some shared_db)))).
  - unfold unique_ids. simpl.
    constructor; [simpl; intros [H|[]]; discriminate H | constructor; [simpl; tauto | constructor]].
  - apply surjective_pairing.
Defined.

(** X14: the identifier [create_room] returns names the room to
    [join_room]: for a new identifier of the driver and a persona of the
    tenant, joining the room just created answers ok and the room is found
    with the name given and a [member_count] of 1. *)
Theorem create_room_then_join_room
    (d : Database) (now1 now2 : datetime) (new_id id2 : bson.oid)
    (payload : RoomCreate.t) (joiner : JoinLeave.t) (t : string)
    (pid : bson.oid) (p : Doc Persona.t) :
  bson.ObjectId new_id = Some new_id ->
  ~ In new_id (map (@_id Room.t) (room d)) ->
  bson.ObjectId (JoinLeave.persona_id joiner) = Some pid ->
  Col.find_one (persona_filter pid t) (persona d) = Some p ->
  exists c d1 d2 r2,
    create_room now1 new_id payload t (Some d) = (Return c, Some d1) /\
    join_room now2 id2 (created_id c) joiner t (Some d1) = (Return (mkOk true), Some d2) /\
    Col.find_one (room_filter new_id t) (room d2) = Some r2 /\
    Room.name (val r2) = RoomCreate.name payload /\
    Room.member_count (val r2) = 1%Z.
Proof.
  intros Hcanon Hfresh Hpid Hp.
  destruct (no_room_with_fresh_id new_id (room d) Hfresh) as [Hnone Hnone_t].
  set (new := mkDoc new_id
                (Room.mk t (RoomCreate.name payload) (RoomCreate.type payload)
                   (RoomCreate.city payload) (RoomCreate.topic payload) 0 now1 now1)).
  assert (Hnew_id : room_id_filter new_id new = true)
    by (unfold room_id_filter, new; apply oid_eqb_eq; reflexivity).
  assert (Hnew : forall g, (forall y, _id (g y) = _id y) ->
                   (forall y, Room.tenant_id (val (g y)) = Room.tenant_id (val y)) ->
                   room_filter new_id t (g new) = true).
  { intros g Hg1 Hg2. apply room_filter_spec. now rewrite Hg1, Hg2. }
  exists (mkCreated (bson.str new_id) new), (set_room (room d ++ [new]) d).
  eexists _, (inc_member_count 1 now2 new).
  split; [reflexivity|]. split.
  { apply (join_room_runs (set_room (room d ++ [new]) d) now2 id2 new_id joiner t
             new_id pid new p Hcanon Hpid); cbn [set_room room persona]; [|exact Hp].
    apply find_one_app_new; [apply Hnone_t | exact (Hnew (fun y => y) (fun _ => eq_refl) (fun _ => eq_refl))]. }
  cbn [set_room room]. rewrite (update_one_app_new _ _ _ _ Hnone Hnew_id).
  split; [|split; reflexivity].
  apply find_one_app_new; [apply Hnone_t|]. now apply Hnew.
Qed.

Lemma create_room_then_join_room_witness :
  exists c d1 d2 r2,
    create_room 4 help_id (RoomCreate.mk "Shinjuku" "city" None None) "default"
      (Some chat_db) = (Return c, Some d1) /\
    join_room 5 member_id (created_id c) (JoinLeave.mk alice_id) "default" (Some d1) =
      (Return (mkOk true), Some d2) /\
    Col.find_one (room_filter help_id "default") (room d2) = Some r2 /\
    Room.name (val r2) = "Shinjuku" /\
    Room.member_count (val r2) = 1%Z.
Proof.
  apply (create_room_then_join_room chat_db 4 5 help_id member_id
           (RoomCreate.mk "Shinjuku" "city" None None) (JoinLeave.mk alice_id) "default"
           alice_id
           (mkDoc alice_id (Persona.mk "default" "alice" None None "A" 1 0 0 1 1 false)));
    [reflexivity | simpl; intros [H|[]]; discriminate H | reflexivity | reflexivity].
Defined.

Lemma limit_200_snoc {D} (l : list D) (x : D) :
  ((List.length l < 200)%nat -> Col.limit 200 (l ++ [x]) = Col.limit 200 l ++ [x]) /\
  ((200 <= List.length l)%nat -> Col.limit 200 (l ++ [x]) = Col.limit 200 l).
Proof.
  change (Col.limit 200 (l ++ [x])) with (firstn 200 (l ++ [x])).
  change (Col.limit 200 l) with (firstn 200 l).
  rewrite firstn_app. split; intros H.
  - rewrite (firstn_all2 (n := 200) l) by lia.
    destruct (200 - List.length l)%nat eqn:E; [lia|]. simpl. now rewrite firstn_nil.
  - replace (200 - List.length l)%nat with 0%nat by lia. apply app_nil_r.
Qed.

Lemma create_room_runs d now new_id payload t :
  let doc :=
    Room.mk t (RoomCreate.name payload) (RoomCreate.type payload)
      (RoomCreate.city payload) (RoomCreate.topic payload) 0 now now in
  create_room now new_id payload t (Some d) =
    (Return (mkCreated (bson.str new_id) (mkDoc new_id doc)),
     Some (set_room (room d ++ [mkDoc new_id doc]) d)).
Proof. reflexivity. Qed.

Lemma list_rooms_runs d t :
  list_rooms t (Some d) =
    (Return (map to_str_id
               (Col.limit 200
                  (Col.find (fun r => String.eqb (Room.tenant_id (val r)) t) (room d)))),
     Some d).
Proof. reflexivity. Qed.

(** X15: [create_room] never refuses (a name may be used twice), and
    [list_rooms] shows a tenant its first 200 rooms: the room just created is
    the last one listed when the tenant had fewer than 200 rooms, and is not
    listed at all when it had 200 or more. *)
Theorem create_room_then_list_rooms
    (d : Database) (now : datetime) (new_id : bson.oid)
    (payload : RoomCreate.t) (t : string) :
  exists listed c d1 listed1,
    list_rooms t (Some d) = (Return listed, Some d) /\
    create_room now new_id payload t (Some d) = (Return c, Some d1) /\
    list_rooms t (Some d1) = (Return listed1, Some d1) /\
    (List.length listed <= 200)%nat /\
    ((List.length (of_tenant Room.tenant_id t (room d)) < 200)%nat ->
     listed1 = listed ++ [to_str_id (created_doc c)]) /\
    ((200 <= List.length (of_tenant Room.tenant_id t (room d)))%nat ->
     listed1 = listed).
Proof.
  eexists _, _, _, _.
  split; [apply list_rooms_runs|]. split; [apply create_room_runs|].
  split; [apply list_rooms_runs|].
  cbn [created_doc set_room room]. unfold Col.find.
  set (new := mkDoc new_id _).
  rewrite filter_app. cbn [filter].
  assert (Hnew : String.eqb (Room.tenant_id (val new)) t = true) by apply String.eqb_refl.
  rewrite Hnew. fold (of_tenant Room.tenant_id t (room d)).
  destruct (limit_200_snoc (of_tenant Room.tenant_id t (room d)) new) as [Hlt Hge].
  split; [|split].
  - rewrite length_map.
    pose proof (limit_positive_length 200 (of_tenant Room.tenant_id t (room d))). lia.
  - intros H. rewrite (Hlt H), map_app. reflexivity.
  - intros H. now rewrite (Hge H).
Qed.

(** ** Personas *)

Lemma create_persona_runs d now new_id payload t :
  Col.find_one (handle_filter t (PersonaCreate.handle payload)) (persona d) = None ->
  let doc :=
    Persona.mk t (PersonaCreate.handle payload) (PersonaCreate.color payload)
      (PersonaCreate.bio payload) (default_avatar_letter payload) 1 0 0 now now false in
  create_persona now new_id payload t (Some d) =
    (Return (mkCreated (bson.str new_id) (mkDoc new_id doc)),
     Some (set_persona (persona d ++ [mkDoc new_id doc]) d)).
Proof. intros H doc. unfold create_persona. run_handler. now rewrite H. Qed.

Lemma create_persona_raises d now new_id payload t p :
  Col.find_one (handle_filter t (PersonaCreate.handle payload)) (persona d) = Some p ->
  create_persona now new_id payload t (Some d) =
    (Raise (HTTPException 400 "Handle already taken"), Some d).
Proof. intros H. unfold create_persona. run_handler. now rewrite H. Qed.

(** X16: [create_persona] keeps handles unique within a tenant: if no two
    personas of a tenant share a handle before the call, none do after it,
    whatever the call answers. *)
Theorem create_persona_keeps_handles_unique
    (d : Database) (now : datetime) (new_id : bson.oid)
    (payload : PersonaCreate.t) (t : string)
    (out : Outcome (Created Persona.t)) (d1 : Database) :
  unique_handles d ->
  create_persona now new_id payload t (Some d) = (out, Some d1) ->
  unique_handles d1.
Proof.
  intros Hu.
  destruct (Col.find_one (handle_filter t (PersonaCreate.handle payload)) (persona d))
    as [p|] eqn:E.
  - rewrite (create_persona_raises d now new_id payload t p E). now intros [= _ <-].
  - rewrite (create_persona_runs d now new_id payload t E). intros [= _ <-].
    unfold unique_handles in *. cbn [set_persona persona]. rewrite map_app.
    apply NoDup_app; [exact Hu | repeat constructor; intros [] |].
    intros k Hk [<-|[]]. apply in_map_iff in Hk as [x [Hx Hin]].
    apply (proj1 (find_one_none _ _) E) in Hin.
    assert (handle_filter t (PersonaCreate.handle payload) x = true); [|congruence].
    apply handle_filter_spec. unfold handle_key in Hx. cbn [val] in Hx.
    now injection Hx.
Qed.

Lemma create_persona_keeps_handles_unique_witness :
  unique_handles
    (set_persona
       (persona chat_db ++
        [mkDoc help_id (Persona.mk "default" "bob" None None "B" 1 0 0 9 9 false)])
       chat_db).
Proof.
  apply (create_persona_keeps_handles_unique chat_db 9 help_id
           (PersonaCreate.mk "bob" None None None) "default"
           (Return (mkCreated help_id
                      (mkDoc help_id
                         (Persona.mk "default" "bob" None None "B" 1 0 0 9 9 false))))).
  - unfold unique_handles. simpl. constructor; [simpl; tauto | constructor].
  - reflexivity.
Defined.

(** X17: the [avatar_letter] of a created persona is never empty: it is the
    one given when that is not empty, and otherwise "?" for an empty handle
    and, for a handle that begins with an ASCII character, that character in
    upper case. *)
Theorem create_persona_avatar_letter
    (d : Database) (now : datetime) (new_id : bson.oid)
    (payload : PersonaCreate.t) (t : string)
    (c : Created Persona.t) (d1 : Database) :
  create_persona now new_id payload t (Some d) = (Return c, Some d1) ->
  let a := Persona.avatar_letter (val (created_doc c)) in
  a <> EmptyString /\
  In (created_doc c) (persona d1) /\
  (forall given, PersonaCreate.avatar_letter payload = Some given ->
     given <> EmptyString -> a = given) /\
  (PersonaCreate.avatar_letter payload = None \/
   PersonaCreate.avatar_letter payload = Some EmptyString ->
   match PersonaCreate.handle payload with
   | EmptyString => a = "?"
   | String ch _ => is_ascii_char ch = true -> a = String (Str.upper_char ch) EmptyString
   end).
Proof.
  destruct (Col.find_one (handle_filter t (PersonaCreate.handle payload)) (persona d))
    as [p|] eqn:E.
  - rewrite (create_persona_raises d now new_id payload t p E). discriminate.
  - rewrite (create_persona_runs d now new_id payload t E). intros [= <- <-].
    cbn [created_doc val Persona.avatar_letter set_persona persona].
    unfold default_avatar_letter.
    split; [|split; [apply in_or_app; right; now left | split]].
    + destruct (PersonaCreate.avatar_letter payload) as [[|c0 g]|];
        destruct (PersonaCreate.handle payload); discriminate.
    + intros given -> Hne. destruct given; [contradiction | reflexivity].
    + intros [-> | ->]; destruct (PersonaCreate.handle payload); reflexivity.
Qed.

Lemma create_persona_avatar_letter_witness :
  "B" <> EmptyString /\
  In (mkDoc help_id (Persona.mk "default" "bob" None None "B" 1 0 0 9 9 false))
     (persona chat_db ++
      [mkDoc help_id (Persona.mk "default" "bob" None None "B" 1 0 0 9 9 false)]) /\
  (forall given, @None string = Some given -> given <> EmptyString -> "B" = given) /\
  (@None string = None \/ @None string = Some EmptyString ->
   is_ascii_char "b" = true -> "B" = String (Str.upper_char "b") EmptyString).
Proof.
  exact (create_persona_avatar_letter chat_db 9 help_id
           (PersonaCreate.mk "bob" None None None) "default"
           (mkCreated help_id
              (mkDoc help_id (Persona.mk "default" "bob" None None "B" 1 0 0 9 9 false)))
           (set_persona
              (persona chat_db ++
               [mkDoc help_id (Persona.mk "default" "bob" None None "B" 1 0 0 9 9 false)])
              chat_db)
           eq_refl).
Defined.

(** ** Tenants, storage and identifiers across the handlers *)

Lemma of_others_snoc_own {A} (tenant_of : A -> string) (t : string)
    (c : list (Doc A)) (x : Doc A) :
  tenant_of (val x) = t ->
  of_others tenant_of t (c ++ [x]) = of_others tenant_of t c.
Proof.
  intros Ht. unfold of_others. rewrite filter_app. cbn [filter].
  rewrite Ht, String.eqb_refl. apply app_nil_r.
Qed.

Lemma others_kept_refl t d : others_kept t d d.
Proof. unfold others_kept. now repeat split. Qed.

(** X18: the handlers that insert ([create_persona], [create_room],
    [send_message], [create_alert], and [ensure_global_room] for the tenant
    "default") leave the documents of every other tenant as they were,
    whatever they answer. *)
Theorem inserting_handlers_keep_other_tenants (d : Database) (t : string) :
  (forall now new_id payload out st,
     create_persona now new_id payload t (Some d) = (out, st) ->
     exists d1, st = Some d1 /\ others_kept t d d1) /\
  (forall now new_id payload out st,
     create_room now new_id payload t (Some d) = (out, st) ->
     exists d1, st = Some d1 /\ others_kept t d d1) /\
  (forall now new_id payload out st,
     send_message now new_id payload t (Some d) = (out, st) ->
     exists d1, st = Some d1 /\ others_kept t d d1) /\
  (forall now new_id payload out st,
     create_alert now new_id payload t (Some d) = (out, st) ->
     exists d1, st = Some d1 /\ others_kept t d d1) /\
  (forall now new_id out st,
     ensure_global_room now new_id (Some d) = (out, st) ->
     exists d1, st = Some d1 /\ others_kept TENANT_DEFAULT d d1).
Proof.
  assert (Hsame : forall A (o : Outcome A) out st t0,
            (o, Some d) = (out, st) -> exists d1, st = Some d1 /\ others_kept t0 d d1).
  { intros A o out st t0 [= _ <-]. exists d. split; [reflexivity | apply others_kept_refl]. }
  split; [|split; [|split; [|split]]].
  - intros now new_id payload out st.
    destruct (Col.find_one (handle_filter t (PersonaCreate.handle payload)) (persona d))
      as [p|] eqn:E.
    + rewrite (create_persona_raises d now new_id payload t p E). apply Hsame.
    + rewrite (create_persona_runs d now new_id payload t E). intros [= _ <-].
      eexists. split; [reflexivity|]. unfold others_kept. cbn [set_persona persona room roommember message alert].
      rewrite of_others_snoc_own by reflexivity. now repeat split.
  - intros now new_id payload out st. rewrite create_room_runs. intros [= _ <-].
    eexists. split; [reflexivity|]. unfold others_kept. cbn [set_room persona room roommember message alert].
    rewrite of_others_snoc_own by reflexivity. now repeat split.
  - intros now new_id payload out st. unfold send_message. run_handler.
    destruct (bson.ObjectId (MessageCreate.room_id payload)) as [rid|]; [|apply Hsame].
    destruct (Col.find_one (room_filter rid t) (room d)); [|apply Hsame].
    destruct (bson.ObjectId (MessageCreate.persona_id payload)) as [pid|]; [|apply Hsame].
    destruct (Col.find_one (persona_filter pid t) (persona d)); [|apply Hsame].
    intros [= _ <-]. eexists. split; [reflexivity|]. unfold others_kept.
    cbn [set_message persona room roommember message alert]. unfold Col.insert_one.
    rewrite of_others_snoc_own by reflexivity. now repeat split.
  - intros now new_id payload out st. unfold create_alert. run_handler.
    destruct (bson.ObjectId (AlertCreate.persona_id payload)) as [pid|]; [|apply Hsame].
    destruct (Col.find_one (persona_filter pid t) (persona d)); [|apply Hsame].
    cbn [Alert.radius_m].
    destruct (fits_int64 (AlertCreate.radius_m payload)); [|apply Hsame].
    intros [= _ <-]. eexists. split; [reflexivity|]. unfold others_kept.
    cbn [set_alert persona room roommember message alert]. unfold Col.insert_one.
    rewrite of_others_snoc_own by reflexivity. now repeat split.
  - intros now new_id out st.
    destruct (Col.find_one global_room_filter (room d)) as [r|] eqn:E.
    + rewrite (ensure_global_room_present d now new_id r E). apply Hsame.
    + rewrite (ensure_global_room_absent d now new_id E). intros [= _ <-].
      eexists. split; [reflexivity|]. unfold others_kept.
      cbn [set_room persona room roommember message alert].
      rewrite of_others_snoc_own by reflexivity. now repeat split.
Qed.

Lemma filter_two {D} (f g : D -> bool) (l : list D) :
  filter (fun x => f x && g x) l = filter g (filter f l).
Proof.
  induction l as [|x l IH]; simpl; [reflexivity|].
  destruct (f x); simpl; [destruct (g x); now rewrite IH | exact IH].
Qed.

(** X19: what the reading handlers return for a tenant depends on the
    documents of that tenant alone: two stores that hold the same personas
    (rooms, messages, alerts) of the tenant give the same [list_personas]
    ([list_rooms], [list_messages], [nearby_alerts]). *)
Theorem reading_handlers_see_own_tenant (d d' : Database) (t : string) :
  (of_tenant Persona.tenant_id t (persona d) = of_tenant Persona.tenant_id t (persona d') ->
   fst (list_personas t (Some d)) = fst (list_personas t (Some d'))) /\
  (of_tenant Room.tenant_id t (room d) = of_tenant Room.tenant_id t (room d') ->
   fst (list_rooms t (Some d)) = fst (list_rooms t (Some d'))) /\
  (of_tenant Message.tenant_id t (message d) = of_tenant Message.tenant_id t (message d') ->
   forall room_id limit,
     fst (list_messages room_id limit t (Some d)) =
     fst (list_messages room_id limit t (Some d'))) /\
  (of_tenant Alert.tenant_id t (alert d) = of_tenant Alert.tenant_id t (alert d') ->
   forall math lat lng radius_m,
     fst (nearby_alerts math lat lng radius_m t (Some d)) =
     fst (nearby_alerts math lat lng radius_m t (Some d'))).
Proof.
  split; [|split; [|split]].
  - intros H. unfold list_personas. run_handler. cbn [fst]. unfold Col.find.
    unfold of_tenant in H. now rewrite H.
  - intros H. rewrite !list_rooms_runs. cbn [fst]. unfold Col.find.
    unfold of_tenant in H. now rewrite H.
  - intros H room_id limit. unfold list_messages. run_handler.
    destruct (bson.ObjectId room_id); [|reflexivity]. cbn [fst].
    unfold Col.find, message_filter. rewrite !(filter_two _ _ (message _)).
    unfold of_tenant in H. now rewrite H.
  - intros H math lat lng radius_m. rewrite !nearby_alerts_scanned. cbn [fst].
    unfold scanned, Col.find. unfold of_tenant in H. now rewrite H.
Qed.

Lemma reading_handlers_see_own_tenant_witness :
  fst (list_rooms "default" (Some chat_db)) = fst (list_rooms "default" (Some shared_db)).
Proof.
  apply (proj1 (proj2 (reading_handlers_see_own_tenant chat_db shared_db "default"))).
  reflexivity.
Defined.

(** Without storage every store-backed handler raises 500 "Database not
    configured" and nothing else happens, while the startup hook returns
    without an error. *)
Lemma handlers_without_storage :
  (forall t, list_personas t None =
     (Raise (HTTPException 500 "Database not configured"), None)) /\
  (forall now new_id payload t, create_persona now new_id payload t None =
     (Raise (HTTPException 500 "Database not configured"), None)) /\
  (forall t, list_rooms t None =
     (Raise (HTTPException 500 "Database not configured"), None)) /\
  (forall now new_id payload t, create_room now new_id payload t None =
     (Raise (HTTPException 500 "Database not configured"), None)) /\
  (forall now new_id room_id payload t, join_room now new_id room_id payload t None =
     (Raise (HTTPException 500 "Database not configured"), None)) /\
  (forall now room_id payload t, leave_room now room_id payload t None =
     (Raise (HTTPException 500 "Database not configured"), None)) /\
  (forall room_id limit t, list_messages room_id limit t None =
     (Raise (HTTPException 500 "Database not configured"), None)) /\
  (forall now new_id payload t, send_message now new_id payload t None =
     (Raise (HTTPException 500 "Database not configured"), None)) /\
  (forall now new_id payload t, create_alert now new_id payload t None =
     (Raise (HTTPException 500 "Database not configured"), None)) /\
  (forall math lat lng radius_m t, nearby_alerts math lat lng radius_m t None =
     (Raise (HTTPException 500 "Database not configured"), None)) /\
  (forall now new_id, ensure_global_room now new_id None = (Return tt, None)).
Proof. repeat split. Qed.

Lemma unique_ids_snoc {A} (c : list (Doc A)) (x : Doc A) :
  unique_ids c -> ~ In (_id x) (map (@_id A) c) -> unique_ids (c ++ [x]).
Proof.
  unfold unique_ids. intros Hu Hfresh. rewrite map_app.
  apply NoDup_app; [exact Hu | repeat constructor; intros [] |].
  intros k Hk [<-|[]]. contradiction.
Qed.

(** X20: room identifiers stay unique.  [join_room] and [leave_room] keep
    them so whatever they answer, and so do [create_room] and
    [ensure_global_room] when the identifier they are given for the new room
    is not in use. *)
Theorem room_ids_stay_unique (d : Database) :
  unique_ids (room d) ->
  (forall now new_id room_id payload t out d1,
     join_room now new_id room_id payload t (Some d) = (out, Some d1) ->
     unique_ids (room d1)) /\
  (forall now room_id payload t out d1,
     leave_room now room_id payload t (Some d) = (out, Some d1) ->
     unique_ids (room d1)) /\
  (forall now new_id payload t out d1,
     ~ In new_id (map (@_id Room.t) (room d)) ->
     create_room now new_id payload t (Some d) = (out, Some d1) ->
     unique_ids (room d1)) /\
  (forall now new_id out d1,
     ~ In new_id (map (@_id Room.t) (room d)) ->
     ensure_global_room now new_id (Some d) = (out, Some d1) ->
     unique_ids (room d1)).
Proof.
  intros Hu.
  assert (Hupd : forall k now rid,
            unique_ids (Col.update_one (room_id_filter rid) (inc_member_count k now) (room d))).
  { intros k now rid. unfold unique_ids. now rewrite update_one_ids. }
  split; [|split; [|split]].
  - intros now new_id room_id payload t out d1. unfold join_room. run_handler.
    destruct (bson.ObjectId room_id) as [rid|]; [|now intros [= _ <-]].
    destruct (bson.ObjectId (JoinLeave.persona_id payload)) as [pid|]; [|now intros [= _ <-]].
    destruct (Col.find_one (room_filter rid t) (room d)); [|now intros [= _ <-]].
    destruct (Col.find_one (persona_filter pid t) (persona d)); [|now intros [= _ <-]].
    store_fields. intros [= _ <-]. cbn [room]. apply Hupd.
  - intros now room_id payload t out d1. unfold leave_room. run_handler.
    destruct (bson.ObjectId room_id) as [rid|]; store_fields; intros [= _ <-]; cbn [room].
    + apply Hupd.
    + exact Hu.
  - intros now new_id payload t out d1 Hfresh. rewrite create_room_runs. intros [= _ <-].
    cbn [set_room room]. now apply unique_ids_snoc.
  - intros now new_id out d1 Hfresh.
    destruct (Col.find_one global_room_filter (room d)) as [r|] eqn:E.
    + rewrite (ensure_global_room_present d now new_id r E). now intros [= _ <-].
    + rewrite (ensure_global_room_absent d now new_id E). intros [= _ <-].
      cbn [set_room room]. now apply unique_ids_snoc.
Qed.

Lemma room_ids_stay_unique_witness :
  unique_ids
    (room chat_db ++
     [mkDoc help_id (Room.mk "default" "Shinjuku" "city" None None 0 4 4)]).
Proof.
  assert (Hu : unique_ids (room chat_db)).
  { unfold unique_ids. simpl. constructor; [simpl; tauto | constructor]. }
  destruct (room_ids_stay_unique chat_db Hu) as [_ [_ [Hcreate _]]].
  apply (Hcreate 4%Z help_id (RoomCreate.mk "Shinjuku" "city" None None) "default"
           (Return (mkCreated help_id
                      (mkDoc help_id (Room.mk "default" "Shinjuku" "city" None None 0 4 4))))
           (set_room
              (room chat_db ++
               [mkDoc help_id (Room.mk "default" "Shinjuku" "city" None None 0 4 4)])
              chat_db)).
  - simpl. intros [H|[]]. discriminate H.
  - reflexivity.
Defined.

(** ** Moderation *)

Lemma lower_char_upper_char c : Str.lower_char (Str.upper_char c) = Str.lower_char c.
Proof. destruct c as [[] [] [] [] [] [] [] []]; reflexivity. Qed.

Lemma lower_char_twice c : Str.lower_char (Str.lower_char c) = Str.lower_char c.
Proof. destruct c as [[] [] [] [] [] [] [] []]; reflexivity. Qed.

Lemma lower_upper s : Str.lower (Str.upper s) = Str.lower s.
Proof.
  induction s as [|c s IH]; simpl; [reflexivity|].
  unfold Str.lower, Str.upper in *. simpl. now rewrite lower_char_upper_char, IH.
Qed.

Lemma lower_lower s : Str.lower (Str.lower s) = Str.lower s.
Proof.
  induction s as [|c s IH]; simpl; [reflexivity|].
  unfold Str.lower in *. simpl. now rewrite lower_char_twice, IH.
Qed.

Lemma lower_app a b : Str.lower (a ++ b)%string = (Str.lower a ++ Str.lower b)%string.
Proof.
  induction a as [|c a IH]; simpl; [reflexivity|].
  unfold Str.lower in *. simpl. now rewrite IH.
Qed.

Lemma string_app_assoc (a b c : string) : ((a ++ b) ++ c = a ++ (b ++ c))%string.
Proof. induction a as [|x a IH]; simpl; [reflexivity | now rewrite IH]. Qed.

Lemma Substring_context sub s pre post :
  Substring sub s -> Substring sub (pre ++ s ++ post)%string.
Proof.
  intros [u [v ->]]. exists (pre ++ u)%string, (v ++ post)%string.
  now rewrite !string_app_assoc.
Qed.

(** X21: on a text within the ASCII range the verdict of [moderate] does
    not depend on letter case, and text around a flagged text does not
    unflag it. *)
Theorem moderate_ignores_case_and_context (req : ModerationReq) :
  (is_ascii (text req) = true ->
   flagged (moderate (mkModerationReq (Str.upper (text req)))) = flagged (moderate req) /\
   flagged (moderate (mkModerationReq (Str.lower (text req)))) = flagged (moderate req)) /\
  (flagged (moderate req) = true ->
   forall pre post,
     flagged (moderate (mkModerationReq (pre ++ text req ++ post)%string)) = true).
Proof.
  unfold moderate. cbn [flagged text]. split; [intros _; split|].
  - now rewrite lower_upper.
  - now rewrite lower_lower.
  - intros H pre post. apply existsb_exists in H as [bad [Hin Hbad]].
    apply existsb_exists. exists bad. split; [exact Hin|].
    apply contains_Substring. rewrite !lower_app.
    apply Substring_context. now apply contains_Substring.
Qed.

Lemma moderate_ignores_case_and_context_witness :
  (flagged (moderate (mkModerationReq (Str.upper "this is Spam"))) =
     flagged (moderate (mkModerationReq "this is Spam")) /\
   flagged (moderate (mkModerationReq (Str.lower "this is Spam"))) =
     flagged (moderate (mkModerationReq "this is Spam"))) /\
  flagged (moderate (mkModerationReq ("well, " ++ "this is Spam" ++ " indeed")%string)) = true.
Proof.
  destruct (moderate_ignores_case_and_context (mkModerationReq "this is Spam"))
    as [Hcase Hctx].
  split; [apply Hcase; reflexivity | apply Hctx; reflexivity].
Defined.

(** ** Further round trips *)

Lemma limit_200_all {D} (l : list D) :
  (List.length l <= 200)%nat -> Col.limit 200 l = l.
Proof. intros H. change (Col.limit 200 l) with (firstn 200 l). now apply firstn_all2. Qed.

Lemma scanned_all t d a :
  (List.length (of_tenant Alert.tenant_id t (alert d)) <= 200)%nat ->
  In a (alert d) -> Alert.tenant_id (val a) = t -> In a (scanned t d).
Proof.
  intros Hlen Hin Ht. unfold scanned. rewrite limit_200_all.
  - apply (Permutation_in a (Permutation_sym (sort_permutation _ _ _))).
    apply filter_In. split; [exact Hin | now apply String.eqb_eq].
  - now rewrite (Permutation_length (sort_permutation _ _ _)).
Qed.

(** X5: for a persona of the tenant and a [radius_m] within eight bytes,
    [create_alert] appends one alert, active and with the payload's
    coordinates, and changes nothing else; when the tenant had fewer than
    200 alerts [nearby_alerts] scans the new one, so that a request that
    returns has it in the result exactly when the double [haversine]
    computes from the query point to the payload's coordinates is within
    the radius asked for. *)
Theorem create_alert_then_nearby
    (d : Database) (now : datetime) (new_id : bson.oid)
    (payload : AlertCreate.t) (t : string) (pid : bson.oid) (p : Doc Persona.t) :
  bson.ObjectId (AlertCreate.persona_id payload) = Some pid ->
  Col.find_one (persona_filter pid t) (persona d) = Some p ->
  fits_int64 (AlertCreate.radius_m payload) = true ->
  (List.length (of_tenant Alert.tenant_id t (alert d)) < 200)%nat ->
  exists c d1,
    create_alert now new_id payload t (Some d) = (Return c, Some d1) /\
    alert d1 = alert d ++ [created_doc c] /\
    persona d1 = persona d /\ room d1 = room d /\
    roommember d1 = roommember d /\ message d1 = message d /\
    created_id c = bson.str new_id /\
    _id (created_doc c) = new_id /\
    Alert.tenant_id (val (created_doc c)) = t /\
    Alert.radius_m (val (created_doc c)) = AlertCreate.radius_m payload /\
    Alert.lat (val (created_doc c)) = Some (AlertCreate.lat payload) /\
    Alert.lng (val (created_doc c)) = Some (AlertCreate.lng payload) /\
    Alert.status (val (created_doc c)) = "Active" /\
    Alert.created_at (val (created_doc c)) = now /\
    forall math lat lng radius_m items st,
      nearby_alerts math lat lng radius_m t (Some d1) = (Return items, st) ->
      ((exists n, In (mkNearby (to_str_id (created_doc c)) n) items) <->
       exists dist,
         haversine math lat lng (AlertCreate.lat payload) (AlertCreate.lng payload) =
           Return dist /\
         float_le_int dist radius_m = true).
Proof.
  intros Hpid Hp Hfit Hlen.
  eexists _, _.
  split; [exact (create_alert_runs d now new_id payload t pid p Hpid Hp Hfit)|].
  cbn [created_doc created_id val _id set_alert persona room roommember message alert
       Alert.tenant_id Alert.radius_m Alert.lat Alert.lng Alert.status Alert.created_at].
  do 13 (split; [reflexivity|]).
  intros math lat lng radius_m items st Hrun.
  match type of Hrun with
  | nearby_alerts _ _ _ _ _ (Some ?d1) = _ =>
      match goal with
      | |- context [to_str_id ?a] =>
          assert (Ha : In a (scanned t d1))
      end
  end.
  { apply scanned_all.
    - cbn [set_alert alert]. unfold of_tenant in *. rewrite filter_app, length_app.
      cbn [filter val Alert.tenant_id]. rewrite String.eqb_refl. cbn [List.length]. lia.
    - cbn [set_alert alert]. apply in_or_app. right. now left.
    - reflexivity. }
  destruct (nearby_alerts_decides _ _ _ _ _ _ _ _ _ Ha Hrun) as [dist [Hd [Hiff _]]].
  unfold measured in Hd. cbn [val Alert.lat Alert.lng get_or_0] in Hd.
  rewrite Hiff. split.
  - intros Hle. now exists dist.
  - intros [dist' [Hd' Hle]]. rewrite Hd in Hd'. now injection Hd' as <-.
Qed.

Lemma create_alert_then_nearby_witness :
  exists c d1,
    create_alert 9 help_id (AlertCreate.mk alice_id "Help" "lost" 500 0 0) "default"
      (Some chat_db) = (Return c, Some d1) /\
    alert d1 = alert chat_db ++ [created_doc c] /\
    Alert.lat (val (created_doc c)) = Some 0%float /\
    (exists n,
       In (mkNearby (to_str_id (created_doc c)) n)
          [mkNearby
             (to_str_id
                (mkDoc help_id
                   (Alert.mk "default" alice_id "Help" "lost" 500 (Some 0%float)
                      (Some 0%float) "Active" 0 0 0 9 9))) 0]).
Proof.
  destruct (create_alert_then_nearby chat_db 9 help_id
              (AlertCreate.mk alice_id "Help" "lost" 500 0 0) "default" alice_id
              (mkDoc alice_id (Persona.mk "default" "alice" None None "A" 1 0 0 1 1 false))
              eq_refl eq_refl eq_refl)
    as (c & d1 & Hrun & Halert & _ & _ & _ & _ & _ & _ & _ & _ & Hlat & _ & _ & _ & Hnear).
  - cbn. lia.
  - exists c, d1. split; [exact Hrun|]. split; [exact Halert|]. split; [exact Hlat|].
    injection Hrun as <- <-.
    apply (Hnear series_math 0%float 0%float 0%Z _ (Some (set_alert
             (alert chat_db ++
              [mkDoc help_id
                 (Alert.mk "default" alice_id "Help" "lost" 500 (Some 0%float)
                    (Some 0%float) "Active" 0 0 0 9 9)]) chat_db)) eq_refl).
    exists 0%float. split; reflexivity.
Defined.

Lemma list_personas_runs d t :
  list_personas t (Some d) =
    (Return (map to_str_id
               (Col.limit 200
                  (Col.find (fun p => String.eqb (Persona.tenant_id (val p)) t) (persona d)))),
     Some d).
Proof. reflexivity. Qed.

(** X22: once [create_persona] has returned, the handle is taken: a second
    call for the same tenant and handle raises 400 and changes nothing; and
    [list_personas] shows the new persona last when the tenant had fewer
    than 200 personas before. *)
Theorem create_persona_then_again
    (d : Database) (now : datetime) (new_id : bson.oid)
    (payload : PersonaCreate.t) (t : string) :
  ~ handle_taken d t (PersonaCreate.handle payload) ->
  exists c d1 listed listed1,
    create_persona now new_id payload t (Some d) = (Return c, Some d1) /\
    handle_taken d1 t (PersonaCreate.handle payload) /\
    (forall now' new_id' payload',
       PersonaCreate.handle payload' = PersonaCreate.handle payload ->
       create_persona now' new_id' payload' t (Some d1) =
         (Raise (HTTPException 400 "Handle already taken"), Some d1)) /\
    list_personas t (Some d) = (Return listed, Some d) /\
    list_personas t (Some d1) = (Return listed1, Some d1) /\
    ((List.length (of_tenant Persona.tenant_id t (persona d)) < 200)%nat ->
     listed1 = listed ++ [to_str_id (created_doc c)]).
Proof.
  intros Hfree. rewrite handle_taken_find in Hfree.
  destruct (Col.find_one (handle_filter t (PersonaCreate.handle payload)) (persona d))
    as [p|] eqn:E; [exfalso; apply Hfree; discriminate|].
  eexists _, _, _, _.
  split; [exact (create_persona_runs d now new_id payload t E)|].
  set (new := mkDoc new_id _).
  assert (Hnew : handle_filter t (PersonaCreate.handle payload) new = true).
  { apply handle_filter_spec. now split. }
  assert (Hfound : Col.find_one (handle_filter t (PersonaCreate.handle payload))
                     (persona (set_persona (persona d ++ [new]) d)) = Some new).
  { cbn [set_persona persona]. now apply find_one_app_new. }
  split.
  { apply handle_taken_find. rewrite Hfound. discriminate. }
  split.
  { intros now' new_id' payload' Hsame.
    apply (create_persona_raises _ now' new_id' payload' t new). now rewrite Hsame. }
  split; [apply list_personas_runs|]. split; [apply list_personas_runs|].
  intros Hcount. cbn [created_doc set_persona persona]. unfold Col.find.
  rewrite filter_app. subst new. cbn [filter val Persona.tenant_id].
  rewrite String.eqb_refl. fold (of_tenant Persona.tenant_id t (persona d)).
  rewrite (proj1 (limit_200_snoc _ _) Hcount), map_app. reflexivity.
Qed.

Lemma create_persona_then_again_witness :
  exists c d1 listed listed1,
    create_persona 9 help_id (PersonaCreate.mk "bob" None None None) "default"
      (Some chat_db) = (Return c, Some d1) /\
    handle_taken d1 "default" "bob" /\
    (forall now' new_id' payload',
       PersonaCreate.handle payload' = "bob" ->
       create_persona now' new_id' payload' "default" (Some d1) =
         (Raise (HTTPException 400 "Handle already taken"), Some d1)) /\
    list_personas "default" (Some chat_db) = (Return listed, Some chat_db) /\
    list_personas "default" (Some d1) = (Return listed1, Some d1) /\
    ((List.length (of_tenant Persona.tenant_id "default" (persona chat_db)) < 200)%nat ->
     listed1 = listed ++ [to_str_id (created_doc c)]).
Proof.
  apply (create_persona_then_again chat_db 9 help_id
           (PersonaCreate.mk "bob" None None None) "default").
  intros [p [[<-|[]] [_ Hh]]]. discriminate Hh.
Defined.
